(** * smart_gemini: the hardware layer, [hw_layer.py] and [hw_layer_chatgpt.py]

    A shallow embedding of the two hardware-abstraction modules of the
    repository and the properties of their peripheral-access and
    degraded-mode logic.

    - [Py] holds what both modules share: Python values, exceptions, the
      outcome of a call and the state-and-exception monad the functions are
      written in, and the numeric library functions ([round],
      [statistics.mean], [statistics.stdev]).
    - [HwLayer] embeds [hw_layer.py] (gpiozero, MLX90640, luma OLED).
    - [HwLayerChatgpt] embeds [hw_layer_chatgpt.py] (lgpio, MLX90614).
    - [FakeRig], [FakeChip] and [Faulty] are simulated worlds to run the
      two modules on; [Runs] and [MoreRuns] hold the runs.
    - The facts follow: [PyFacts], [HwLayerPure], [HwLayerFacts],
      [ChatgptFacts] and [Claims], then [Frame], [Rounding], [ChatgptMore]
      and [HwLayerMore].

    Python floats are modelled as rationals ([Q]): comparisons and means
    are then exact, and the one operation that leaves the rationals, the
    square root of [statistics.stdev], is a parameter of the development.
    NaN and the infinities are outside the model.  Asynchronous exceptions
    ([KeyboardInterrupt]) are outside the model too: every exception a
    driver call raises is an instance of [Exception]. *)

From Stdlib Require Import ZArith QArith Qround List String Bool Lia Lqa.
Import ListNotations.

Set Implicit Arguments.

(* ================================================================== *)
(** * Shared Python notions *)
(* ================================================================== *)

Module Py.

(** The Python values the two modules return. *)
#[local] Unset Elimination Schemes.
Inductive pyval : Type :=
| PyNone
| PyBool (b : bool)
| PyInt (z : Z)
| PyFloat (q : Q)
| PyStr (s : string)
| PyTuple (items : list pyval)
| PyDict (items : list (string * pyval)).
#[local] Set Elimination Schemes.

(** The exception classes the handlers of the two modules tell apart:
    [except (OSError, IOError)] against [except Exception].  [IOError] is
    an alias of [OSError]. *)
Inductive exn_class : Type := OSError | OtherException.

Record exn : Type := mkExn { exn_kind : exn_class; exn_msg : string }.

Definition is_OSError (e : exn) : bool :=
  match exn_kind e with OSError => true | OtherException => false end.

(** What running a piece of code gives: a value, a raised exception, or
    no answer within the polls allowed (a [while] loop still running). *)
Inductive outcome (A : Type) : Type :=
| Ret (a : A)
| Raise (e : exn)
| OutOfFuel.

Arguments Raise {A} e.
Arguments OutOfFuel {A}.

(** What a call into a driver or library gives back: a value, or an
    exception. *)
Inductive reply (A : Type) : Type :=
| Fine (a : A)
| Fails (e : exn).

Arguments Fails {A} e.

(** ** The monad: state passing with exceptions *)

Definition M (S A : Type) : Type := S -> outcome A * S.

Definition ret {S A} (a : A) : M S A := fun s => (Ret a, s).

Definition raise {S A} (e : exn) : M S A := fun s => (Raise e, s).

(** A loop that is still running when the polls allowed are used up. *)
Definition out_of_fuel {S A} : M S A := fun s => (OutOfFuel, s).

Definition bind {S A B} (c : M S A) (k : A -> M S B) : M S B :=
  fun s =>
    match c s with
    | (Ret a, s') => k a s'
    | (Raise e, s') => (Raise e, s')
    | (OutOfFuel, s') => (OutOfFuel, s')
    end.

(** [try: c except Exception as e: h e].  A loop that has not finished is
    not an exception and is not caught. *)
Definition try_except {S A} (c : M S A) (h : exn -> M S A) : M S A :=
  fun s =>
    match c s with
    | (Raise e, s') => h e s'
    | r => r
    end.

(** [try: c except (OSError, IOError): h]: other exceptions propagate. *)
Definition try_except_OSError {S A} (c : M S A) (h : M S A) : M S A :=
  fun s =>
    match c s with
    | (Raise e, s') => if is_OSError e then h s' else (Raise e, s')
    | r => r
    end.

(** [try: c finally: f], which is also what leaving a [with] block does. *)
Definition finally {S A} (c : M S A) (f : M S unit) : M S A :=
  fun s =>
    match c s with
    | (OutOfFuel, s') => (OutOfFuel, s')
    | (r, s') =>
        match f s' with
        | (Ret _, s'') => (r, s'')
        | (Raise e, s'') => (Raise e, s'')
        | (OutOfFuel, s'') => (OutOfFuel, s'')
        end
    end.

(** ** What a run leaves behind

    Every call into a driver or library and every [print] is recorded,
    the most recent event first. *)
Inductive event : Type :=
| EPrint (line : string)
| ECall (fn : string) (args : list pyval).

(** The state of a module: the world outside the process ([W], the
    hardware and its drivers), the events so far and the module's global
    variables ([G]). *)
Record state (W G : Type) : Type := mkState {
  world : W;
  trace : list event;
  globals : G
}.

Section Combinators.
Context {W G : Type}.

Definition print (line : string) : M (state W G) unit :=
  fun s => (Ret tt, mkState (world s) (EPrint line :: trace s) (globals s)).

(** A call into the outside world: recorded, then answered by the
    world, which moves on. *)
Definition call {A} (fn : string) (args : list pyval)
    (f : W -> reply A * W) : M (state W G) A :=
  fun s =>
    let (r, w') := f (world s) in
    (match r with Fine a => Ret a | Fails e => Raise e end,
     mkState w' (ECall fn args :: trace s) (globals s)).

(** A library function that cannot fail. *)
Definition total {A} (f : W -> A * W) : W -> reply A * W :=
  fun w => let (a, w') := f w in (Fine a, w').

Definition read_globals : M (state W G) G :=
  fun s => (Ret (globals s), s).

Definition write_globals (f : G -> G) : M (state W G) unit :=
  fun s => (Ret tt, mkState (world s) (trace s) (f (globals s))).
End Combinators.

(** ** The tagged result of the data model

    Neither module builds a [Reading]: a function hands back a plain
    Python value.  [as_reading] is that value as a caller holding to the
    data model receives it: [None], Python's one value for nothing, and a
    tuple of nothing but [None], is [Unavailable]; anything else is data.
    No value of either module carries an error tag. *)
Inductive Reading (T : Type) : Type :=
| Ok (v : T)
| Unavailable
| Error (reason : string).

Arguments Unavailable {T}.
Arguments Error {T} reason.

Definition is_None (v : pyval) : bool :=
  match v with PyNone => true | _ => false end.

Definition as_reading (v : pyval) : Reading pyval :=
  match v with
  | PyNone => Unavailable
  | PyTuple (x :: rest) =>
      if forallb is_None (x :: rest) then Unavailable else Ok v
  | _ => Ok v
  end.

Declare Scope py_scope.
Delimit Scope py_scope with py.
Notation "x <- c ;; k" := (bind c (fun x => k))
  (at level 61, c at next level, right associativity) : py_scope.
Notation "c ;;; k" := (bind c (fun _ => k))
  (at level 61, right associativity) : py_scope.

(** ** Numbers *)

(** A line feed, for the strings that span lines. *)
Definition nl : string := String (Ascii.ascii_of_nat 10) EmptyString.

Definition Qgtb (x y : Q) : bool := negb (Qle_bool x y).
Definition Qltb (x y : Q) : bool := Qgtb y x.

(** [round(x, ndigits)] on a float: the nearest multiple of
    [10^-ndigits], a tie going to the even one. *)
Definition round_half_even (y : Q) : Z :=
  let f := Qfloor y in
  let frac := (y - inject_Z f)%Q in
  if Qltb frac (1 # 2) then f
  else if Qgtb frac (1 # 2) then (f + 1)%Z
  else if Z.even f then f else (f + 1)%Z.

Definition round (x : Q) (ndigits : nat) : Q :=
  let scale := Pos.pow 10 (Pos.of_nat ndigits) in
  match ndigits with
  | O => inject_Z (round_half_even x)
  | _ => Qmake (round_half_even (x * inject_Z (Zpos scale))) scale
  end.

Definition Qsum (l : list Q) : Q := fold_right Qplus 0%Q l.

(** [statistics.mean]: the sum over the count, computed exactly. *)
Definition mean (l : list Q) : Q :=
  (Qsum l / inject_Z (Z.of_nat (List.length l)))%Q.

(** [statistics.variance]: the sum of squared deviations from the mean
    over [n - 1], computed exactly. *)
Definition variance (l : list Q) : Q :=
  let m := mean l in
  (Qsum (map (fun x => (x - m) * (x - m)) l)
     / inject_Z (Z.of_nat (List.length l) - 1))%Q.

End Py.

(* ================================================================== *)
(** * [hw_layer.py] *)
(* ================================================================== *)

Module HwLayer.
Import Py.
Local Open Scope string_scope.
Local Open Scope py_scope.

(** ** Hardware pin configuration *)
Definition ULTRASONIC_TRIG_PIN : Z := 23.
Definition ULTRASONIC_ECHO_PIN : Z := 24.
Definition BUZZER_PIN : Z := 18.
Definition BUTTON_PIN : Z := 17.

(** The libraries the module calls, as functions of the outside world:
    gpiozero ([Device.pin_factory], [DistanceSensor], [Buzzer], [Button]),
    busio, the two Adafruit sensor drivers and the luma OLED driver.  The
    first group are the constructors the module runs when it is imported,
    the second the methods and properties its functions use. *)
Class Drivers (W : Type) : Type := {
  pin_factory_close : W -> reply unit * W;
  busio_I2C : W -> reply unit * W;
  MLX90640 : W -> reply unit * W;
  TCS34725 : W -> reply unit * W;
  luma_i2c : Z -> Z -> W -> reply unit * W;
  ssd1306 : W -> reply unit * W;
  DistanceSensor : Z -> Z -> W -> reply unit * W;
  Buzzer : Z -> W -> reply unit * W;
  Button : Z -> bool -> W -> reply unit * W;

  distance : W -> reply Q * W;
  getFrame : W -> reply (list Q) * W;
  temperature_ambient : W -> reply Q * W;
  color_rgb_bytes : W -> reply (Z * Z * Z) * W;
  beep : Q -> Z -> W -> reply unit * W;
  is_pressed : W -> reply bool * W;
  canvas : W -> reply unit * W;
  draw_text : Z -> Z -> string -> W -> reply unit * W;
  canvas_display : W -> reply unit * W
}.

(** [math.sqrt], the one float operation of [statistics.stdev] that the
    rationals do not have. *)
Class Numerics : Type := { float_sqrt : Q -> Q }.

(** A driver object.  The world holds what it does; the module only ever
    tests whether it has one. *)
Definition obj : Type := unit.

(** The module's global variables; [None] is Python's [None]. *)
Record Globals : Type := mkGlobals {
  pin_factory : option obj;
  i2c_bus : option obj;
  mlx_sensor : option obj;
  tcs_sensor : option obj;
  oled_device : option obj;
  distance_sensor_obj : option obj;
  buzzer_obj : option obj;
  button_obj : option obj
}.

Section Functions.
Context {W : Type} `{Drivers W} `{Numerics}.

Definition State : Type := state W Globals.
Definition Run (A : Type) : Type := M State A.

(** ** Robustness: clean up any pins left open by a previous run *)
Definition cleanup_gpio_pins : Run unit :=
  try_except
    (g <- read_globals ;;
     match pin_factory g with
     | Some _ =>
         call "Device.pin_factory.close" [] pin_factory_close ;;;
         print "INFO: Cleaned up previously used GPIO pins."
     | None => ret tt
     end)
    (fun _ => ret tt).

(** ** Hardware initialization, run when the module is imported *)
Definition init_i2c_bus : Run unit :=
  try_except
    (call "busio.I2C" [] busio_I2C ;;;
     write_globals (fun g =>
       mkGlobals (pin_factory g) (Some tt) (mlx_sensor g) (tcs_sensor g)
         (oled_device g) (distance_sensor_obj g) (buzzer_obj g)
         (button_obj g)))
    (fun e =>
       print ("FATAL: I2C bus could not be initialized. Error: "
                ++ exn_msg e) ;;;
       write_globals (fun g =>
         mkGlobals (pin_factory g) None (mlx_sensor g) (tcs_sensor g)
           (oled_device g) (distance_sensor_obj g) (buzzer_obj g)
           (button_obj g))).

Definition init_i2c_sensors : Run unit :=
  g <- read_globals ;;
  match i2c_bus g with
  | Some _ =>
      call "adafruit_circuitpython_mlx90640.MLX90640" [] MLX90640 ;;;
      call "adafruit_tcs34725.TCS34725" [] TCS34725 ;;;
      write_globals (fun g =>
        mkGlobals (pin_factory g) (i2c_bus g) (Some tt) (Some tt)
          (oled_device g) (distance_sensor_obj g) (buzzer_obj g)
          (button_obj g))
  | None =>
      write_globals (fun g =>
        mkGlobals (pin_factory g) (i2c_bus g) None None
          (oled_device g) (distance_sensor_obj g) (buzzer_obj g)
          (button_obj g))
  end.

Definition init_oled_device : Run unit :=
  try_except
    (call "i2c" [PyInt 1; PyInt 60] (luma_i2c 1 60) ;;;
     call "ssd1306" [] ssd1306 ;;;
     write_globals (fun g =>
       mkGlobals (pin_factory g) (i2c_bus g) (mlx_sensor g) (tcs_sensor g)
         (Some tt) (distance_sensor_obj g) (buzzer_obj g) (button_obj g)))
    (fun e =>
       print ("Warning: Could not initialize OLED Display. Error: "
                ++ exn_msg e) ;;;
       write_globals (fun g =>
         mkGlobals (pin_factory g) (i2c_bus g) (mlx_sensor g)
           (tcs_sensor g) None (distance_sensor_obj g) (buzzer_obj g)
           (button_obj g))).

Definition init_gpio_devices : Run unit :=
  try_except
    (call "DistanceSensor"
       [PyInt ULTRASONIC_ECHO_PIN; PyInt ULTRASONIC_TRIG_PIN]
       (DistanceSensor ULTRASONIC_ECHO_PIN ULTRASONIC_TRIG_PIN) ;;;
     write_globals (fun g =>
       mkGlobals (pin_factory g) (i2c_bus g) (mlx_sensor g) (tcs_sensor g)
         (oled_device g) (Some tt) (buzzer_obj g) (button_obj g)) ;;;
     call "Buzzer" [PyInt BUZZER_PIN] (Buzzer BUZZER_PIN) ;;;
     write_globals (fun g =>
       mkGlobals (pin_factory g) (i2c_bus g) (mlx_sensor g) (tcs_sensor g)
         (oled_device g) (distance_sensor_obj g) (Some tt) (button_obj g)) ;;;
     call "Button" [PyInt BUTTON_PIN; PyBool true]
       (Button BUTTON_PIN true) ;;;
     write_globals (fun g =>
       mkGlobals (pin_factory g) (i2c_bus g) (mlx_sensor g) (tcs_sensor g)
         (oled_device g) (distance_sensor_obj g) (buzzer_obj g) (Some tt)))
    (fun e =>
       print ("Warning: A GPIO device could not be initialized. Error: "
                ++ exn_msg e) ;;;
       write_globals (fun g =>
         mkGlobals (pin_factory g) (i2c_bus g) (mlx_sensor g)
           (tcs_sensor g) (oled_device g) None None None)).

Definition module_init : Run unit :=
  cleanup_gpio_pins ;;;
  init_i2c_bus ;;;
  init_i2c_sensors ;;;
  init_oled_device ;;;
  init_gpio_devices.

(** ** The functions of the module *)

Definition get_color_name (rgb : Z * Z * Z) : string :=
  let '(r, g, b) := rgb in
  if ((r >? 200) && (g >? 200) && (b >? 200))%Z then "White"
  else if ((r <? 30) && (g <? 30) && (b <? 30))%Z then "Black"
  else if ((r >? g) && (r >? b))%Z then "Red"
  else if ((g >? r) && (g >? b))%Z then "Green"
  else if ((b >? r) && (b >? g))%Z then "Blue"
  else if ((r >? 100) && (g >? 100) && (b <? 50))%Z then "Yellow"
  else "Unknown".

Definition read_temperature : Run pyval :=
  g <- read_globals ;;
  match mlx_sensor g with
  | Some _ =>
      try_except_OSError
        (temps <- call "mlx_sensor.getFrame" [] getFrame ;;
         t <- call "mlx_sensor.temperature_ambient" [] temperature_ambient ;;
         let ambient := round t 1 in
         let obj_temp := round (Qsum temps / 768) 1 in
         ret (PyDict [("ambient", PyFloat ambient);
                      ("object", PyFloat obj_temp)]))
        (ret (PyDict [("ambient", PyInt 0); ("object", PyInt 0)]))
  | None =>
      ret (PyDict [("ambient", PyFloat 25); ("object", PyFloat 25)])
  end.

Definition read_color : Run pyval :=
  g <- read_globals ;;
  match tcs_sensor g with
  | Some _ =>
      try_except
        (rgb <- call "tcs_sensor.color_rgb_bytes" [] color_rgb_bytes ;;
         ret (PyDict [("color_name", PyStr (get_color_name rgb))]))
        (fun _ => ret (PyDict [("color_name", PyStr "Error")]))
  | None => ret (PyDict [("color_name", PyStr "N/A")])
  end.

Definition buzzer_beep (duration : Q) : Run pyval :=
  g <- read_globals ;;
  match buzzer_obj g with
  | Some _ =>
      call "buzzer_obj.beep" [PyFloat duration; PyInt 1] (beep duration 1) ;;;
      ret PyNone
  | None => ret PyNone
  end.

Definition read_button : Run pyval :=
  g <- read_globals ;;
  match button_obj g with
  | Some _ =>
      p <- call "button_obj.is_pressed" [] is_pressed ;;
      ret (PyBool (negb p))
  | None => ret (PyBool true)
  end.

(** [[distance_sensor_obj.distance * 100 for _ in range(samples)]] *)
Fixpoint read_samples (n : nat) : Run (list Q) :=
  match n with
  | O => ret []
  | S k =>
      d <- call "distance_sensor_obj.distance" [] distance ;;
      rest <- read_samples k ;;
      ret ((d * 100)%Q :: rest)
  end.

(** [2 < r < 400] *)
Definition in_envelope (r : Q) : bool := Qltb 2 r && Qltb r 400.

(** [statistics.stdev] *)
Definition stdev (l : list Q) : Q := float_sqrt (variance l).

(** [samples=10] *)
Definition default_samples : Z := 10.

Definition measure_distance (samples : Z) : Run pyval :=
  g <- read_globals ;;
  match distance_sensor_obj g with
  | None =>
      print "Distance sensor is not available." ;;;
      ret (PyTuple [PyInt 0; PyInt 0])
  | Some _ =>
      readings <- read_samples (Z.to_nat samples) ;;
      let valid_readings := filter in_envelope readings in
      match valid_readings with
      | [] => ret (PyTuple [PyInt 0; PyInt 0])
      | _ =>
          let avg := PyFloat (round (mean valid_readings) 2) in
          let std_dev :=
            if (1 <? List.length valid_readings)%nat
            then PyFloat (round (stdev valid_readings) 2)
            else PyInt 0 in
          ret (PyTuple [avg; std_dev])
      end
  end.

Definition analyze_absorption (sigma : Q) : string :=
  if Qgtb sigma (12 # 10) then "High"
  else if Qgtb sigma (5 # 10) then "Medium"
  else "Low".

Definition update_physical_oled (distance shape material : string)
  : Run pyval :=
  g <- read_globals ;;
  match oled_device g with
  | Some _ =>
      try_except
        (call "canvas" [] canvas ;;;
         call "draw.text" [PyInt 0; PyInt 0; PyStr ("Dist: " ++ distance)]
           (draw_text 0 0 ("Dist: " ++ distance)) ;;;
         call "draw.text" [PyInt 0; PyInt 12; PyStr ("Shape: " ++ shape)]
           (draw_text 0 12 ("Shape: " ++ shape)) ;;;
         call "draw.text" [PyInt 0; PyInt 24; PyStr ("Mat: " ++ material)]
           (draw_text 0 24 ("Mat: " ++ material)) ;;;
         call "canvas.display" [] canvas_display ;;;
         ret PyNone)
        (fun e => print ("Error writing to OLED: " ++ exn_msg e) ;;;
                  ret PyNone)
  | None =>
      print ("--- OLED Sim ---" ++ nl ++ "Dist: " ++ distance ++ nl
               ++ "Shape: " ++ shape ++ nl ++ "Mat: " ++ material ++ nl
               ++ "----------------") ;;;
      ret PyNone
  end.

End Functions.

End HwLayer.

(* ================================================================== *)
(** * [hw_layer_chatgpt.py] *)
(* ================================================================== *)

Module HwLayerChatgpt.
Import Py.
Local Open Scope string_scope.
Local Open Scope py_scope.

(** ** GPIO pin mapping *)
Definition TRIG : Z := 23.
Definition ECHO : Z := 24.
Definition BUZZER : Z := 18.
Definition BUTTON : Z := 17.

(** The libraries the module calls, as functions of the outside world:
    lgpio, [time], smbus2 with the MLX90614 driver, busio with the
    TCS34725 driver, and Adafruit_SSD1306 with PIL. *)
Class Drivers (W : Type) : Type := {
  gpiochip_open : Z -> W -> reply Z * W;
  gpiochip_close : Z -> W -> reply unit * W;
  gpio_claim_output : Z -> Z -> W -> reply unit * W;
  gpio_claim_input : Z -> Z -> W -> reply unit * W;
  gpio_write : Z -> Z -> Z -> W -> reply unit * W;
  gpio_read : Z -> Z -> W -> reply Z * W;

  time_time : W -> Q * W;
  time_sleep : Q -> W -> unit * W;

  SMBus : Z -> W -> reply unit * W;
  SMBus_close : W -> reply unit * W;
  MLX90614 : Z -> W -> reply unit * W;
  get_ambient : W -> reply Q * W;
  get_object_1 : W -> reply Q * W;

  busio_I2C : W -> reply unit * W;
  TCS34725 : W -> reply unit * W;
  color_raw : W -> reply (Z * Z * Z * Z) * W;
  color_temperature : W -> reply (option Q) * W;
  lux : W -> reply (option Q) * W;

  SSD1306_128_64 : W -> reply unit * W;
  disp_begin : W -> reply unit * W;
  disp_clear : W -> reply unit * W;
  disp_display : W -> reply unit * W;
  Image_new : Z -> Z -> W -> reply unit * W;
  ImageDraw_Draw : W -> reply unit * W;
  ImageFont_load_default : W -> reply unit * W;
  draw_text : Z -> Z -> string -> W -> reply unit * W;
  disp_image : W -> reply unit * W
}.

Definition obj : Type := unit.

(** The module's global variables: the chip handle, and the optional
    imports, which are [None] when the import failed. *)
Record Globals : Type := mkGlobals {
  gpio_handle : option Z;
  TCS34725_class : option obj;
  MLX90614_class : option obj;
  Adafruit_SSD1306 : option obj
}.

Definition set_gpio_handle (h : option Z) (g : Globals) : Globals :=
  mkGlobals h (TCS34725_class g) (MLX90614_class g) (Adafruit_SSD1306 g).

Definition opt_float (o : option Q) : pyval :=
  match o with Some q => PyFloat q | None => PyNone end.

Section Functions.
Context {W : Type} `{Drivers W}.

Definition State : Type := state W Globals.
Definition Run (A : Type) : Type := M State A.

(** [time.sleep(secs)]: a negative length is a [ValueError]. *)
Definition sleep (secs : Q) : Run unit :=
  if Qltb secs 0
  then raise (mkExn OtherException "sleep length must be non-negative")
  else call "time.sleep" [PyFloat secs] (total (time_sleep secs)).

Definition now : Run Q := call "time.time" [] (total time_time).

(** Calling a class that failed to import, and so is [None]. *)
Definition construct (cls : option obj) (ctor : Run unit) : Run unit :=
  match cls with
  | Some _ => ctor
  | None => raise (mkExn OtherException "'NoneType' object is not callable")
  end.

(** ** GPIO initialization *)

Definition cleanup_gpio : Run unit :=
  try_except
    (g <- read_globals ;;
     match gpio_handle g with
     | Some h =>
         call "lgpio.gpiochip_close" [PyInt h] (gpiochip_close h) ;;;
         write_globals (set_gpio_handle None) ;;;
         print "[INFO] GPIO cleaned up."
     | None => ret tt
     end)
    (fun e => print ("[WARN] GPIO cleanup error: " ++ exn_msg e)).

Definition init_gpio : Run unit :=
  try_except
    (g <- read_globals ;;
     match gpio_handle g with
     | Some h => call "lgpio.gpiochip_close" [PyInt h] (gpiochip_close h)
     | None => ret tt
     end ;;;
     h <- call "lgpio.gpiochip_open" [PyInt 0] (gpiochip_open 0) ;;
     write_globals (set_gpio_handle (Some h)) ;;;
     call "lgpio.gpio_claim_output" [PyInt h; PyInt TRIG]
       (gpio_claim_output h TRIG) ;;;
     call "lgpio.gpio_claim_input" [PyInt h; PyInt ECHO]
       (gpio_claim_input h ECHO) ;;;
     call "lgpio.gpio_claim_output" [PyInt h; PyInt BUZZER]
       (gpio_claim_output h BUZZER) ;;;
     call "lgpio.gpio_claim_input" [PyInt h; PyInt BUTTON]
       (gpio_claim_input h BUTTON) ;;;
     print "[INFO] GPIO initialized successfully.")
    (fun e =>
       print ("[WARN] GPIO init failed: " ++ exn_msg e) ;;;
       cleanup_gpio ;;;
       sleep (5 # 10) ;;;
       try_except
         (h <- call "lgpio.gpiochip_open" [PyInt 0] (gpiochip_open 0) ;;
          write_globals (set_gpio_handle (Some h)) ;;;
          print "[INFO] GPIO recovered after error.")
         (fun e2 =>
            print ("[ERROR] Unable to recover GPIO: " ++ exn_msg e2) ;;;
            write_globals (set_gpio_handle None))).

(** ** Ultrasonic measurement *)

(** [while lgpio.gpio_read(gpio_handle, ECHO) == level: t = time.time()],
    given the value [t] has before the loop; one unit of [fuel] is one
    read of the line. *)
Fixpoint wait_echo (fuel : nat) (h level : Z) (t : Q) : Run Q :=
  match fuel with
  | O => out_of_fuel
  | S fuel' =>
      v <- call "lgpio.gpio_read" [PyInt h; PyInt ECHO] (gpio_read h ECHO) ;;
      if (v =? level)%Z
      then (t' <- now ;; wait_echo fuel' h level t')
      else ret t
  end.

Definition measure_distance (fuel : nat) : Run pyval :=
  g <- read_globals ;;
  match gpio_handle g with
  | None =>
      print "[ERROR] Distance sensor not available." ;;;
      ret PyNone
  | Some h =>
      try_except
        (call "lgpio.gpio_write" [PyInt h; PyInt TRIG; PyInt 1]
           (gpio_write h TRIG 1) ;;;
         sleep (1 # 100000) ;;;
         call "lgpio.gpio_write" [PyInt h; PyInt TRIG; PyInt 0]
           (gpio_write h TRIG 0) ;;;
         t0 <- now ;;
         start_time <- wait_echo fuel h 0 t0 ;;
         t1 <- now ;;
         stop_time <- wait_echo fuel h 1 t1 ;;
         let time_elapsed := (stop_time - start_time)%Q in
         let distance := (time_elapsed * 34300 / 2)%Q in
         if Qle_bool distance 2 || Qle_bool 400 distance
         then ret PyNone
         else ret (PyFloat (round distance 2)))
        (fun e =>
           print ("[ERROR] Ultrasonic read failed: " ++ exn_msg e) ;;;
           ret PyNone)
  end.

(** ** Button and buzzer control *)

(** [while lgpio.gpio_read(gpio_handle, BUTTON) == 1: time.sleep(0.05)] *)
Fixpoint poll_button (fuel : nat) (h : Z) : Run unit :=
  match fuel with
  | O => out_of_fuel
  | S fuel' =>
      v <- call "lgpio.gpio_read" [PyInt h; PyInt BUTTON]
             (gpio_read h BUTTON) ;;
      if (v =? 1)%Z
      then (sleep (5 # 100) ;;; poll_button fuel' h)
      else ret tt
  end.

Definition wait_for_button_press (fuel : nat) : Run pyval :=
  g <- read_globals ;;
  match gpio_handle g with
  | None =>
      print "[WARN] Button not available." ;;;
      ret (PyBool false)
  | Some h =>
      print "[INFO] Waiting for button press..." ;;;
      try_except
        (poll_button fuel h ;;;
         print "[INFO] Button pressed." ;;;
         ret (PyBool true))
        (fun e =>
           print ("[WARN] Button read error: " ++ exn_msg e) ;;;
           ret (PyBool false))
  end.

(** [duration=0.1] *)
Definition default_duration : Q := 1 # 10.

Definition beep (duration : Q) : Run pyval :=
  g <- read_globals ;;
  match gpio_handle g with
  | None =>
      print "[WARN] Buzzer not available." ;;;
      ret PyNone
  | Some h =>
      try_except
        (call "lgpio.gpio_write" [PyInt h; PyInt BUZZER; PyInt 1]
           (gpio_write h BUZZER 1) ;;;
         sleep duration ;;;
         call "lgpio.gpio_write" [PyInt h; PyInt BUZZER; PyInt 0]
           (gpio_write h BUZZER 0) ;;;
         ret PyNone)
        (fun e =>
           print ("[WARN] Buzzer failed: " ++ exn_msg e) ;;;
           ret PyNone)
  end.

(** ** MLX90614 sensor *)
Definition read_temperature : Run pyval :=
  try_except
    (call "SMBus" [PyInt 1] (SMBus 1) ;;;
     finally
       (g <- read_globals ;;
        construct (MLX90614_class g)
          (call "MLX90614" [PyInt 90] (MLX90614 90)) ;;;
        a <- call "sensor.get_ambient" [] get_ambient ;;
        let ambient := round a 2 in
        o <- call "sensor.get_object_1" [] get_object_1 ;;
        let object_temp := round o 2 in
        ret (PyTuple [PyFloat ambient; PyFloat object_temp]))
       (call "SMBus.close" [] SMBus_close))
    (fun e =>
       print ("[WARN] MLX90614 read failed: " ++ exn_msg e) ;;;
       ret (PyTuple [PyNone; PyNone])).

(** ** TCS34725 sensor *)
Definition read_color : Run pyval :=
  try_except
    (call "busio.I2C" [] busio_I2C ;;;
     g <- read_globals ;;
     construct (TCS34725_class g) (call "TCS34725" [] TCS34725) ;;;
     raw <- call "sensor.color_raw" [] color_raw ;;
     let '(r, g, b, c) := raw in
     color_temp <- call "sensor.color_temperature" [] color_temperature ;;
     lx <- call "sensor.lux" [] lux ;;
     ret (PyDict [("r", PyInt r); ("g", PyInt g); ("b", PyInt b);
                  ("clear", PyInt c);
                  ("color_temp", opt_float color_temp);
                  ("lux", opt_float lx)]))
    (fun e =>
       print ("[WARN] TCS34725 read failed: " ++ exn_msg e) ;;;
       ret PyNone).

(** ** OLED display *)
Definition init_oled : Run (option obj) :=
  g <- read_globals ;;
  match Adafruit_SSD1306 g with
  | None =>
      print "[WARN] OLED libraries not available." ;;;
      ret None
  | Some _ =>
      try_except
        (call "Adafruit_SSD1306.SSD1306_128_64" [] SSD1306_128_64 ;;;
         call "disp.begin" [] disp_begin ;;;
         call "disp.clear" [] disp_clear ;;;
         call "disp.display" [] disp_display ;;;
         ret (Some tt))
        (fun e =>
           print ("[WARN] OLED init failed: " ++ exn_msg e) ;;;
           ret None)
  end.

(** [for i, text in enumerate(lines): draw.text((0, i * 15), text, ...)] *)
Fixpoint draw_lines (i : Z) (lines : list string) : Run unit :=
  match lines with
  | [] => ret tt
  | text :: rest =>
      call "draw.text" [PyInt 0; PyInt (i * 15); PyStr text]
        (draw_text 0 (i * 15) text) ;;;
      draw_lines (i + 1) rest
  end.

Definition oled_display_message (disp : option obj) (lines : list string)
  : Run pyval :=
  match disp with
  | None => ret PyNone
  | Some _ =>
      try_except
        (call "disp.clear" [] disp_clear ;;;
         call "disp.display" [] disp_display ;;;
         call "Image.new" [PyInt 128; PyInt 64] (Image_new 128 64) ;;;
         call "ImageDraw.Draw" [] ImageDraw_Draw ;;;
         call "ImageFont.load_default" [] ImageFont_load_default ;;;
         draw_lines 0 (firstn 4 lines) ;;;
         call "disp.image" [] disp_image ;;;
         call "disp.display" [] disp_display ;;;
         ret PyNone)
        (fun e =>
           print ("[WARN] OLED draw failed: " ++ exn_msg e) ;;;
           ret PyNone)
  end.

End Functions.

End HwLayerChatgpt.

(* ================================================================== *)
(** * Two simulated worlds, to run the modules on *)
(* ================================================================== *)

(** A simulated rig for [hw_layer.py]: which buses answer, what the
    sensors read, and whether the thermal sensor fails a read. *)
Module FakeRig.
Import Py.
Local Open Scope string_scope.

Record rig : Type := mkRig {
  i2c_ok : bool;
  oled_ok : bool;
  gpio_ok : bool;
  frame_error : option exn;   (* what [getFrame] raises, if it does *)
  frame : list Q;
  ambient : Q;
  rgb : Z * Z * Z;
  ranges : list Q;            (* the coming distance readings, in metres *)
  pressed : bool
}.

Definition answer {A} (ok : bool) (msg : string) (a : A) (w : rig)
  : reply A * rig :=
  if ok then (Fine a, w) else (Fails (mkExn OSError msg), w).

Definition next_range (w : rig) : reply Q * rig :=
  match ranges w with
  | [] => (Fine 0%Q, w)
  | d :: rest =>
      (Fine d, mkRig (i2c_ok w) (oled_ok w) (gpio_ok w) (frame_error w)
                (frame w) (ambient w) (rgb w) rest (pressed w))
  end.

Definition get_frame (w : rig) : reply (list Q) * rig :=
  match frame_error w with
  | Some e => (Fails e, w)
  | None => (Fine (frame w), w)
  end.

#[global] Instance rig_drivers : HwLayer.Drivers rig := {|
  HwLayer.pin_factory_close := fun w => (Fine tt, w);
  HwLayer.busio_I2C := fun w => answer (i2c_ok w) "No I2C device" tt w;
  HwLayer.MLX90640 := fun w => answer (i2c_ok w) "No I2C device" tt w;
  HwLayer.TCS34725 := fun w => answer (i2c_ok w) "No I2C device" tt w;
  HwLayer.luma_i2c := fun _ _ w => answer (oled_ok w) "I2C device not found" tt w;
  HwLayer.ssd1306 := fun w => answer (oled_ok w) "I2C device not found" tt w;
  HwLayer.DistanceSensor := fun _ _ w => answer (gpio_ok w) "GPIO busy" tt w;
  HwLayer.Buzzer := fun _ w => answer (gpio_ok w) "GPIO busy" tt w;
  HwLayer.Button := fun _ _ w => answer (gpio_ok w) "GPIO busy" tt w;
  HwLayer.distance := next_range;
  HwLayer.getFrame := get_frame;
  HwLayer.temperature_ambient := fun w => (Fine (ambient w), w);
  HwLayer.color_rgb_bytes := fun w => (Fine (rgb w), w);
  HwLayer.beep := fun _ _ w => (Fine tt, w);
  HwLayer.is_pressed := fun w => (Fine (pressed w), w);
  HwLayer.canvas := fun w => answer (oled_ok w) "I2C device not found" tt w;
  HwLayer.draw_text := fun _ _ _ w => (Fine tt, w);
  HwLayer.canvas_display := fun w => answer (oled_ok w) "I2C device not found" tt w
|}.

(** A square root good to six decimal digits, rounded down. *)
Definition sqrt6 (q : Q) : Q :=
  Qmake (Z.sqrt (Qfloor (q * 1000000000000))) 1000000.

#[global] Instance rig_numerics : HwLayer.Numerics :=
  {| HwLayer.float_sqrt := sqrt6 |}.

(** The module's globals before it is imported, and a rig. *)
Definition no_globals : HwLayer.Globals :=
  HwLayer.mkGlobals None None None None None None None None.

Definition all_globals : HwLayer.Globals :=
  HwLayer.mkGlobals (Some tt) (Some tt) (Some tt) (Some tt) (Some tt)
    (Some tt) (Some tt) (Some tt).

Definition bench : rig :=
  mkRig true true true None (repeat (215 # 10) 768) (2231 # 100)
    (250, 10, 10)%Z [] false.

Definition with_ranges (l : list Q) (w : rig) : rig :=
  mkRig (i2c_ok w) (oled_ok w) (gpio_ok w) (frame_error w) (frame w)
    (ambient w) (rgb w) l (pressed w).

Definition with_frame_error (e : exn) (w : rig) : rig :=
  mkRig (i2c_ok w) (oled_ok w) (gpio_ok w) (Some e) (frame w)
    (ambient w) (rgb w) (ranges w) (pressed w).

(** Nothing attached: every bus and chip refuses. *)
Definition unplugged : rig :=
  mkRig false false false None [] 0 (0, 0, 0)%Z [] false.

Definition start (g : HwLayer.Globals) (w : rig) : HwLayer.State :=
  mkState w [] g.

End FakeRig.

(** A simulated GPIO chip for [hw_layer_chatgpt.py]: handles are opened
    and closed, a closed handle refuses every call, claims are recorded,
    and the echo and button lines follow a script. *)
Module FakeChip.
Import Py.
Local Open Scope string_scope.

Record chip : Type := mkChip {
  busy : nat;                 (* how many coming opens fail *)
  opened : list Z;
  next_handle : Z;
  claimed : list (Z * Z);     (* (handle, pin) *)
  echo : list Z;              (* the coming reads of the echo line *)
  echo_idle : Z;              (* what it reads once the script is used up *)
  button : list Z;
  button_idle : Z;
  clock : Q;
  i2c_ok : bool
}.

Definition is_open (h : Z) (c : chip) : bool :=
  existsb (Z.eqb h) (opened c).

Definition bad_handle {A} (c : chip) : reply A * chip :=
  (Fails (mkExn OtherException "unknown handle"), c).

Definition open (c : chip) : reply Z * chip :=
  match busy c with
  | S k =>
      (Fails (mkExn OtherException "GPIO busy"),
       mkChip k (opened c) (next_handle c) (claimed c) (echo c) (echo_idle c)
         (button c) (button_idle c) (clock c) (i2c_ok c))
  | O =>
      (Fine (next_handle c),
       mkChip O (next_handle c :: opened c) (next_handle c + 1) (claimed c)
         (echo c) (echo_idle c) (button c) (button_idle c) (clock c)
         (i2c_ok c))
  end.

Definition close (h : Z) (c : chip) : reply unit * chip :=
  if is_open h c
  then (Fine tt,
        mkChip (busy c) (filter (fun x => negb (Z.eqb h x)) (opened c))
          (next_handle c)
          (filter (fun hp => negb (Z.eqb h (fst hp))) (claimed c))
          (echo c) (echo_idle c) (button c) (button_idle c) (clock c)
          (i2c_ok c))
  else bad_handle c.

Definition claim (h pin : Z) (c : chip) : reply unit * chip :=
  if is_open h c
  then (Fine tt,
        mkChip (busy c) (opened c) (next_handle c) ((h, pin) :: claimed c)
          (echo c) (echo_idle c) (button c) (button_idle c) (clock c)
          (i2c_ok c))
  else bad_handle c.

Definition write (h pin level : Z) (c : chip) : reply unit * chip :=
  if is_open h c then (Fine tt, c) else bad_handle c.

(** One read of a line takes a tenth of a millisecond. *)
Definition tick : Q := 1 # 10000.

Definition read (h pin : Z) (c : chip) : reply Z * chip :=
  if is_open h c then
    if (pin =? HwLayerChatgpt.ECHO)%Z then
      match echo c with
      | [] =>
          (Fine (echo_idle c),
           mkChip (busy c) (opened c) (next_handle c) (claimed c) []
             (echo_idle c) (button c) (button_idle c) (clock c + tick)
             (i2c_ok c))
      | v :: rest =>
          (Fine v,
           mkChip (busy c) (opened c) (next_handle c) (claimed c) rest
             (echo_idle c) (button c) (button_idle c) (clock c + tick)
             (i2c_ok c))
      end
    else
      match button c with
      | [] =>
          (Fine (button_idle c),
           mkChip (busy c) (opened c) (next_handle c) (claimed c) (echo c)
             (echo_idle c) [] (button_idle c) (clock c + tick) (i2c_ok c))
      | v :: rest =>
          (Fine v,
           mkChip (busy c) (opened c) (next_handle c) (claimed c) (echo c)
             (echo_idle c) rest (button_idle c) (clock c + tick) (i2c_ok c))
      end
  else bad_handle c.

Definition pass (secs : Q) (c : chip) : unit * chip :=
  (tt, mkChip (busy c) (opened c) (next_handle c) (claimed c) (echo c)
         (echo_idle c) (button c) (button_idle c) (clock c + secs)
         (i2c_ok c)).

Definition bus {A} (a : A) (c : chip) : reply A * chip :=
  if i2c_ok c then (Fine a, c)
  else (Fails (mkExn OSError "Remote I/O error"), c).

#[global] Instance chip_drivers : HwLayerChatgpt.Drivers chip := {|
  HwLayerChatgpt.gpiochip_open := fun _ => open;
  HwLayerChatgpt.gpiochip_close := close;
  HwLayerChatgpt.gpio_claim_output := claim;
  HwLayerChatgpt.gpio_claim_input := claim;
  HwLayerChatgpt.gpio_write := write;
  HwLayerChatgpt.gpio_read := read;
  HwLayerChatgpt.time_time := fun c => (clock c, c);
  HwLayerChatgpt.time_sleep := pass;
  HwLayerChatgpt.SMBus := fun _ => bus tt;
  HwLayerChatgpt.SMBus_close := fun c => (Fine tt, c);
  HwLayerChatgpt.MLX90614 := fun _ c => (Fine tt, c);
  HwLayerChatgpt.get_ambient := bus (2231 # 100);
  HwLayerChatgpt.get_object_1 := bus (3657 # 100);
  HwLayerChatgpt.busio_I2C := bus tt;
  HwLayerChatgpt.TCS34725 := bus tt;
  HwLayerChatgpt.color_raw := bus (250, 10, 10, 300)%Z;
  HwLayerChatgpt.color_temperature := bus (Some (2700 # 1));
  HwLayerChatgpt.lux := bus (Some (120 # 1));
  HwLayerChatgpt.SSD1306_128_64 := bus tt;
  HwLayerChatgpt.disp_begin := bus tt;
  HwLayerChatgpt.disp_clear := bus tt;
  HwLayerChatgpt.disp_display := bus tt;
  HwLayerChatgpt.Image_new := fun _ _ c => (Fine tt, c);
  HwLayerChatgpt.ImageDraw_Draw := fun c => (Fine tt, c);
  HwLayerChatgpt.ImageFont_load_default := fun c => (Fine tt, c);
  HwLayerChatgpt.draw_text := fun _ _ _ c => (Fine tt, c);
  HwLayerChatgpt.disp_image := bus tt
|}.

(** A free chip with nothing open, both lines idle low. *)
Definition idle : chip := mkChip 0 [] 0 [] [] 0 [] 0 0 true.

Definition with_busy (n : nat) (c : chip) : chip :=
  mkChip n (opened c) (next_handle c) (claimed c) (echo c) (echo_idle c)
    (button c) (button_idle c) (clock c) (i2c_ok c).

Definition with_echo (l : list Z) (c : chip) : chip :=
  mkChip (busy c) (opened c) (next_handle c) (claimed c) l (echo_idle c)
    (button c) (button_idle c) (clock c) (i2c_ok c).

(** The module's globals before [init_gpio] has run, every optional
    import having succeeded. *)
Definition fresh_globals : HwLayerChatgpt.Globals :=
  HwLayerChatgpt.mkGlobals None (Some tt) (Some tt) (Some tt).

Definition start (g : HwLayerChatgpt.Globals) (c : chip)
  : HwLayerChatgpt.State :=
  mkState c [] g.

End FakeChip.

(* ================================================================== *)
(** * Facts about the shared notions *)
(* ================================================================== *)

Module PyFacts.
Import Py.

Lemma Qgtb_iff (x y : Q) : Qgtb x y = true <-> (y < x)%Q.
Proof.
  unfold Qgtb. rewrite negb_true_iff.
  split; intro H.
  - apply Qnot_le_lt. intro L. apply Qle_bool_iff in L. congruence.
  - destruct (Qle_bool x y) eqn:E; [|reflexivity].
    apply Qle_bool_iff in E. exfalso. exact (Qlt_not_le _ _ H E).
Qed.

Lemma Qgtb_false_iff (x y : Q) : Qgtb x y = false <-> (x <= y)%Q.
Proof.
  unfold Qgtb. rewrite negb_false_iff. apply Qle_bool_iff.
Qed.

Lemma Qltb_iff (x y : Q) : Qltb x y = true <-> (x < y)%Q.
Proof. apply Qgtb_iff. Qed.

Lemma Qgtb_spec (x y : Q) : reflect (y < x)%Q (Qgtb x y).
Proof.
  destruct (Qgtb x y) eqn:E; constructor.
  - now apply Qgtb_iff.
  - apply Qgtb_false_iff in E. now apply Qle_not_lt.
Qed.

(** Running a sequence: the first part decides how it goes on. *)
Lemma bind_ret {S A B} (c : M S A) (k : A -> M S B) s a s' :
  c s = (Ret a, s') -> bind c k s = k a s'.
Proof. unfold bind. now intros ->. Qed.

Lemma bind_raise {S A B} (c : M S A) (k : A -> M S B) s e s' :
  c s = (Raise e, s') -> bind c k s = (Raise e, s').
Proof. unfold bind. now intros ->. Qed.

Lemma bind_out_of_fuel {S A B} (c : M S A) (k : A -> M S B) s s' :
  c s = (OutOfFuel, s') -> bind c k s = (OutOfFuel, s').
Proof. unfold bind. now intros ->. Qed.

(** ** Three things a piece of code may be known to do

    [halts]: it does not run out of polls; [never_raises]: no exception
    leaves it; [returns]: both, so it hands back a value. *)
Definition halts {S A} (c : M S A) : Prop :=
  forall s, fst (c s) <> OutOfFuel.

Definition never_raises {S A} (c : M S A) : Prop :=
  forall s e, fst (c s) <> Raise e.

Definition returns {S A} (c : M S A) : Prop :=
  forall s, exists a, fst (c s) = Ret a.

Lemma returns_halts {S A} (c : M S A) : returns c -> halts c.
Proof. intros R s. destruct (R s) as [a ->]. discriminate. Qed.

Lemma returns_never_raises {S A} (c : M S A) : returns c -> never_raises c.
Proof. intros R s e. destruct (R s) as [a ->]. discriminate. Qed.

Lemma returns_intro {S A} (c : M S A) :
  halts c -> never_raises c -> returns c.
Proof.
  intros Hh Hn s. specialize (Hh s). specialize (Hn s).
  destruct (fst (c s)) as [a|e|]; [now exists a| |congruence].
  exfalso. exact (Hn e eq_refl).
Qed.

Section Totality.
Context {W G : Type}.
Let St : Type := state W G.

Lemma returns_ret {A} (a : A) : returns (ret a : M St A).
Proof. intro s. now exists a. Qed.

Lemma returns_print line : returns (print line : M St unit).
Proof. intro s. now exists tt. Qed.

Lemma returns_read_globals : returns (read_globals : M St G).
Proof. intro s. now exists (globals s). Qed.

Lemma returns_write_globals f : returns (write_globals f : M St unit).
Proof. intro s. now exists tt. Qed.

Lemma returns_call_total {A} fn args (f : W -> A * W) :
  returns (call fn args (total f) : M St A).
Proof.
  intro s. unfold call, total. destruct (f (world s)) as [a w'].
  now exists a.
Qed.

Lemma halts_call {A} fn args (f : W -> reply A * W) :
  halts (call fn args f : M St A).
Proof.
  intro s. unfold call. destruct (f (world s)) as [[a|e] w']; discriminate.
Qed.

Lemma halts_raise {A} e : halts (raise e : M St A).
Proof. intro s. discriminate. Qed.

Lemma halts_bind {A B} (c : M St A) (k : A -> M St B) :
  halts c -> (forall a, halts (k a)) -> halts (bind c k).
Proof.
  intros Hc Hk s. unfold bind. specialize (Hc s).
  destruct (c s) as [[a|e|] s']; simpl in *; try discriminate; [|congruence].
  apply Hk.
Qed.

Lemma halts_try_except {A} (c : M St A) h :
  halts c -> (forall e, halts (h e)) -> halts (try_except c h).
Proof.
  intros Hc Hh s. unfold try_except. specialize (Hc s).
  destruct (c s) as [[a|e|] s']; simpl in *; try discriminate; [|congruence].
  apply Hh.
Qed.

Lemma halts_finally {A} (c : M St A) f :
  halts c -> halts f -> halts (finally c f).
Proof.
  intros Hc Hf s. unfold finally. specialize (Hc s).
  destruct (c s) as [[a|e|] s']; simpl in *; try congruence;
    specialize (Hf s'); destruct (f s') as [[u|e'|] s'']; simpl in *;
    congruence.
Qed.

Lemma returns_bind {A B} (c : M St A) (k : A -> M St B) :
  returns c -> (forall a, returns (k a)) -> returns (bind c k).
Proof.
  intros Hc Hk s. unfold bind. destruct (Hc s) as [a E].
  destruct (c s) as [[a'|e|] s']; simpl in E; try discriminate.
  apply Hk.
Qed.

(** A handler that returns makes the whole [try] return, provided the
    body is not a loop that may still be running. *)
Lemma returns_try_except {A} (c : M St A) h :
  halts c -> (forall e, returns (h e)) -> returns (try_except c h).
Proof.
  intros Hc Hh s. unfold try_except. specialize (Hc s).
  destruct (c s) as [[a|e|] s']; simpl in *; [now exists a| |congruence].
  apply Hh.
Qed.

Lemma never_raises_bind {A B} (c : M St A) (k : A -> M St B) :
  never_raises c -> (forall a, never_raises (k a)) -> never_raises (bind c k).
Proof.
  intros Hc Hk s e. unfold bind. specialize (Hc s).
  destruct (c s) as [[a|e'|] s']; simpl in *; try discriminate.
  - apply Hk.
  - exfalso. exact (Hc e' eq_refl).
Qed.

Lemma never_raises_try_except {A} (c : M St A) h :
  (forall e, never_raises (h e)) -> never_raises (try_except c h).
Proof.
  intros Hh s e. unfold try_except.
  destruct (c s) as [[a|e'|] s']; simpl; try discriminate.
  apply Hh.
Qed.

(** ** Taking a run apart *)

Lemma bind_Ret_inv {A B} (c : M St A) (k : A -> M St B) s b s' :
  bind c k s = (Ret b, s') ->
  exists a s1, c s = (Ret a, s1) /\ k a s1 = (Ret b, s').
Proof.
  unfold bind. destruct (c s) as [[a|e|] s1]; try discriminate.
  intro E. now exists a, s1.
Qed.

Lemma try_except_Ret_inv {A} (c : M St A) h s a s' :
  try_except c h s = (Ret a, s') ->
  c s = (Ret a, s') \/
  exists e s1, c s = (Raise e, s1) /\ h e s1 = (Ret a, s').
Proof.
  unfold try_except. destruct (c s) as [[a'|e|] s1]; try discriminate.
  - now left.
  - intro E. right. now exists e, s1.
Qed.

(** ** Allowing more polls

    [steady c]: once [c] answers within [n] polls, it gives the same
    answer, and the same state, with any larger allowance. *)
Definition steady {A} (c : nat -> M St A) : Prop :=
  forall n m s, (n <= m)%nat -> fst (c n s) <> OutOfFuel -> c m s = c n s.

Lemma steady_const {A} (c : M St A) : steady (fun _ => c).
Proof. intros n m s _ _. reflexivity. Qed.

Lemma steady_bind {A B} (c : nat -> M St A) (k : nat -> A -> M St B) :
  steady c -> (forall a, steady (fun n => k n a)) ->
  steady (fun n => bind (c n) (k n)).
Proof.
  intros Hc Hk n m s L N. unfold bind in *.
  destruct (c n s) as [[a|e|] s1] eqn:E.
  - rewrite (Hc n m s L) by (rewrite E; discriminate). rewrite E.
    now apply (Hk a n m s1 L).
  - rewrite (Hc n m s L) by (rewrite E; discriminate). now rewrite E.
  - now contradiction N.
Qed.

Lemma steady_bind_const {A B} (c : M St A) (k : nat -> A -> M St B) :
  (forall a, steady (fun n => k n a)) -> steady (fun n => bind c (k n)).
Proof.
  intro Hk. apply steady_bind with (c := fun _ => c) (k := k);
    [apply steady_const|exact Hk].
Qed.

Lemma steady_try_except {A} (c : nat -> M St A) (h : exn -> M St A) :
  steady c -> steady (fun n => try_except (c n) h).
Proof.
  intros Hc n m s L N. unfold try_except in *.
  destruct (c n s) as [[a|e|] s1] eqn:E.
  - rewrite (Hc n m s L) by (rewrite E; discriminate). now rewrite E.
  - rewrite (Hc n m s L) by (rewrite E; discriminate). now rewrite E.
  - now contradiction N.
Qed.

End Totality.

Create HintDb py_total.

#[export] Hint Resolve returns_ret returns_print returns_read_globals
  returns_write_globals returns_call_total returns_bind
  returns_try_except halts_call halts_raise halts_bind halts_try_except
  halts_finally returns_halts returns_never_raises never_raises_bind
  never_raises_try_except : py_total.

End PyFacts.

(* ================================================================== *)
(** * Properties of [hw_layer.py]: the pure functions *)
(* ================================================================== *)

Module HwLayerPure.
Import Py PyFacts HwLayer.
Local Open Scope string_scope.

Ltac split_cmp :=
  repeat match goal with
         | |- context [(?a >? ?b)%Z] => rewrite (Z.gtb_ltb a b)
         | |- context [(?a <? ?b)%Z] =>
             destruct (Z.ltb_spec a b); cbn [andb]
         end.

(** C6.  [get_color_name] tries its rules in a fixed order and the first
    that matches wins: all channels above 200 is White; all below 30 is
    Black; then one channel strictly above the other two names Red, Green
    or Blue; Yellow ([r > 100], [g > 100], [b < 50]) is tried only after
    the three dominance rules, so it is reached exactly when red and green
    are equal; anything else is Unknown.  In particular (255,255,255) is
    White, (10,10,10) Black, (250,10,10) Red, and (120,130,20) is Green,
    not Yellow. *)
Theorem get_color_name_priority : forall r g b : Z,
  let white := (r > 200 /\ g > 200 /\ b > 200)%Z in
  let black := (r < 30 /\ g < 30 /\ b < 30)%Z in
  let red := (r > g /\ r > b)%Z in
  let green := (g > r /\ g > b)%Z in
  let blue := (b > r /\ b > g)%Z in
  let yellow := (r > 100 /\ g > 100 /\ b < 50)%Z in
  (get_color_name (r, g, b) = "White" <-> white) /\
  (get_color_name (r, g, b) = "Black" <-> ~ white /\ black) /\
  (get_color_name (r, g, b) = "Red" <-> ~ white /\ ~ black /\ red) /\
  (get_color_name (r, g, b) = "Green"
     <-> ~ white /\ ~ black /\ ~ red /\ green) /\
  (get_color_name (r, g, b) = "Blue"
     <-> ~ white /\ ~ black /\ ~ red /\ ~ green /\ blue) /\
  (get_color_name (r, g, b) = "Yellow"
     <-> ~ white /\ ~ black /\ ~ red /\ ~ green /\ ~ blue /\ yellow) /\
  (get_color_name (r, g, b) = "Unknown"
     <-> ~ white /\ ~ black /\ ~ red /\ ~ green /\ ~ blue /\ ~ yellow) /\
  (get_color_name (r, g, b) = "Yellow" -> r = g) /\
  get_color_name (255, 255, 255)%Z = "White" /\
  get_color_name (10, 10, 10)%Z = "Black" /\
  get_color_name (250, 10, 10)%Z = "Red" /\
  get_color_name (120, 130, 20)%Z = "Green" /\
  get_color_name (120, 130, 20)%Z <> "Yellow".
Proof.
  intros r g b white black red green blue yellow.
  subst white black red green blue yellow.
  repeat match goal with |- _ /\ _ => split end;
    try reflexivity; try (cbn; discriminate);
    unfold get_color_name; split_cmp;
    try split; intros;
    first [ discriminate | reflexivity | lia | exfalso; lia ].
Qed.

(** C5.  [analyze_absorption] is a total function of the deviation with
    strict thresholds: High exactly above 1.2, Medium exactly in
    (0.5, 1.2], Low exactly up to 0.5; so 1.2 is Medium, 0.5 is Low and
    1.3 is High. *)
Theorem analyze_absorption_thresholds : forall sigma : Q,
  (analyze_absorption sigma = "High" <-> (12 # 10 < sigma)%Q) /\
  (analyze_absorption sigma = "Medium"
     <-> (5 # 10 < sigma)%Q /\ (sigma <= 12 # 10)%Q) /\
  (analyze_absorption sigma = "Low" <-> (sigma <= 5 # 10)%Q) /\
  analyze_absorption (12 # 10) = "Medium" /\
  analyze_absorption (5 # 10) = "Low" /\
  analyze_absorption (13 # 10) = "High".
Proof.
  intro sigma.
  repeat match goal with |- _ /\ _ => split end; try reflexivity;
    unfold analyze_absorption;
    destruct (Qgtb_spec sigma (12 # 10)) as [H1|H1];
    destruct (Qgtb_spec sigma (5 # 10)) as [H2|H2];
    try split; intros;
    first [ discriminate | reflexivity | lra ].
Qed.

End HwLayerPure.

(* ================================================================== *)
(** * Properties of [hw_layer.py]: the functions that touch hardware *)
(* ================================================================== *)

Module HwLayerFacts.
Import Py PyFacts HwLayer.
Local Open Scope string_scope.

(** The pair [(0, 0)] and the two dictionaries the module falls back to. *)
Definition zero_pair : pyval := PyTuple [PyInt 0; PyInt 0].
Definition zero_temperature : pyval :=
  PyDict [("ambient", PyInt 0); ("object", PyInt 0)].
Definition default_temperature : pyval :=
  PyDict [("ambient", PyFloat 25); ("object", PyFloat 25)].

(** What [measure_distance] reports for the readings that passed the
    filter. *)
Definition summary `{Numerics} (valid : list Q) : pyval :=
  match valid with
  | [] => zero_pair
  | [_] => PyTuple [PyFloat (round (mean valid) 2); PyInt 0]
  | _ => PyTuple [PyFloat (round (mean valid) 2);
                  PyFloat (round (stdev valid) 2)]
  end.

(** Every peripheral object is [None]. *)
Definition all_absent (g : Globals) : Prop :=
  mlx_sensor g = None /\ tcs_sensor g = None /\ oled_device g = None /\
  distance_sensor_obj g = None /\ buzzer_obj g = None /\ button_obj g = None.

Section Effects.
Context {W : Type} `{Drivers W} `{Numerics}.

Lemma forallb_filter_nil_iff {A} (f : A -> bool) (l : list A) :
  filter f l = [] <-> forall x, In x l -> f x = false.
Proof.
  induction l as [|a l IH]; simpl.
  - split; [intros _ x []|reflexivity].
  - destruct (f a) eqn:E; split.
    + discriminate.
    + intro F. specialize (F a (or_introl eq_refl)). congruence.
    + intros N x [<-|I]; [assumption|]. now apply IH.
    + intro F. apply IH. intros x I. apply F. now right.
Qed.

Lemma in_envelope_iff (r : Q) :
  in_envelope r = true <-> (2 < r)%Q /\ (r < 400)%Q.
Proof.
  unfold in_envelope. rewrite andb_true_iff, !Qltb_iff. tauto.
Qed.

Lemma read_samples_shape (n : nat) : forall (s s' : State) readings,
  read_samples n s = (Ret readings, s') ->
  List.length readings = n /\ globals s' = globals s.
Proof.
  induction n as [|n IH]; intros s s' readings E; simpl in E.
  - inversion E; subst. split; reflexivity.
  - unfold bind, call in E.
    destruct (distance (world s)) as [[d|e] w1]; try discriminate.
    match type of E with
    | context [read_samples n ?s1] =>
        destruct (read_samples n s1) as [[rest| |] s2] eqn:E2;
        try discriminate; apply IH in E2
    end.
    unfold ret in E. inversion E; subst. simpl in *.
    destruct E2 as [-> ->]. split; reflexivity.
Qed.

Lemma measure_distance_absent (samples : Z) (s : State) :
  distance_sensor_obj (globals s) = None ->
  measure_distance samples s =
    (Ret zero_pair,
     mkState (world s)
       (EPrint "Distance sensor is not available." :: trace s) (globals s)).
Proof.
  intro E. unfold measure_distance, bind, read_globals. now rewrite E.
Qed.

Lemma measure_distance_present (samples : Z) (s s' : State) readings :
  distance_sensor_obj (globals s) <> None ->
  read_samples (Z.to_nat samples) s = (Ret readings, s') ->
  measure_distance samples s =
    (Ret (summary (filter in_envelope readings)), s').
Proof.
  intros E R. unfold measure_distance, bind, read_globals.
  destruct (distance_sensor_obj (globals s)); [|congruence].
  rewrite R. unfold summary.
  destruct (filter in_envelope readings) as [|x [|y l]]; reflexivity.
Qed.

Lemma read_temperature_absent (s : State) :
  mlx_sensor (globals s) = None ->
  read_temperature s = (Ret default_temperature, s).
Proof.
  intro E. unfold read_temperature, bind, read_globals. now rewrite E.
Qed.

Lemma read_temperature_frame_error (s : State) e w' :
  mlx_sensor (globals s) <> None ->
  getFrame (world s) = (Fails e, w') ->
  is_OSError e = true ->
  read_temperature s =
    (Ret zero_temperature,
     mkState w' (ECall "mlx_sensor.getFrame" [] :: trace s) (globals s)).
Proof.
  intros E F O. unfold read_temperature, bind, read_globals.
  destruct (mlx_sensor (globals s)); [|congruence].
  unfold try_except_OSError, call. rewrite F. cbn. rewrite O. reflexivity.
Qed.

Lemma read_color_absent (s : State) :
  tcs_sensor (globals s) = None ->
  read_color s = (Ret (PyDict [("color_name", PyStr "N/A")]), s).
Proof.
  intro E. unfold read_color, bind, read_globals. now rewrite E.
Qed.

Lemma read_button_absent (s : State) :
  button_obj (globals s) = None ->
  read_button s = (Ret (PyBool true), s).
Proof.
  intro E. unfold read_button, bind, read_globals. now rewrite E.
Qed.

Lemma buzzer_beep_absent (duration : Q) (s : State) :
  buzzer_obj (globals s) = None ->
  buzzer_beep duration s = (Ret PyNone, s).
Proof.
  intro E. unfold buzzer_beep, bind, read_globals. now rewrite E.
Qed.

Lemma update_physical_oled_absent (d sh m : string) (s : State) :
  oled_device (globals s) = None ->
  exists line,
    update_physical_oled d sh m s =
      (Ret PyNone, mkState (world s) (EPrint line :: trace s) (globals s)).
Proof.
  intro E. unfold update_physical_oled, bind, read_globals. rewrite E.
  eexists. reflexivity.
Qed.

Lemma cleanup_gpio_pins_returns (s : State) :
  fst (cleanup_gpio_pins s) = Ret tt /\
  globals (snd (cleanup_gpio_pins s)) = globals s.
Proof.
  unfold cleanup_gpio_pins, try_except, bind, read_globals, call, print, ret.
  destruct (pin_factory (globals s)); simpl; [|split; reflexivity].
  destruct (pin_factory_close (world s)) as [[[]|e] w']; simpl;
    split; reflexivity.
Qed.


(** C10.  [measure_distance] gives the same pair (0, 0) when there is no
    sensor object, when the sample count is zero or negative, and when
    every reading taken falls outside (2, 400): the returned value does
    not tell the three apart. *)
Theorem measure_distance_zero_pair_ambiguous :
  forall (samples : Z) (s : State),
  distance_sensor_obj (globals s) = None \/
  (samples <= 0)%Z \/
  (exists readings s',
     read_samples (Z.to_nat samples) s = (Ret readings, s') /\
     forall r, In r readings -> ~ ((2 < r)%Q /\ (r < 400)%Q)) ->
  fst (measure_distance samples s) = Ret (PyTuple [PyInt 0; PyInt 0]).
Proof.
  intros samples s [E|[E|(readings & s' & R & F)]].
  - now rewrite measure_distance_absent.
  - destruct (distance_sensor_obj (globals s)) eqn:D;
      [|now rewrite measure_distance_absent].
    rewrite (@measure_distance_present samples s s []).
    + reflexivity.
    + congruence.
    + replace (Z.to_nat samples) with O by lia. reflexivity.
  - destruct (distance_sensor_obj (globals s)) eqn:D;
      [|now rewrite measure_distance_absent].
    rewrite (@measure_distance_present samples s s' readings);
      [|congruence|assumption].
    replace (filter in_envelope readings) with (@nil Q); [reflexivity|].
    symmetry. apply forallb_filter_nil_iff.
    intros r I. destruct (in_envelope r) eqn:V; [|reflexivity].
    apply in_envelope_iff in V. exfalso. exact (F r I V).
Qed.

End Effects.
End HwLayerFacts.

(* ================================================================== *)
(** * Properties of [hw_layer_chatgpt.py] *)
(* ================================================================== *)

Module ChatgptFacts.
Import Py PyFacts HwLayerChatgpt.
Local Open Scope string_scope.

(** The calls that claim a pin, among the events of a run. *)
Definition is_claim (e : event) : bool :=
  match e with
  | ECall fn _ =>
      String.eqb fn "lgpio.gpio_claim_output"
      || String.eqb fn "lgpio.gpio_claim_input"
  | EPrint _ => false
  end.

Definition is_open_call (e : event) : bool :=
  match e with
  | ECall fn _ => String.eqb fn "lgpio.gpiochip_open"
  | EPrint _ => false
  end.

Definition none_pair : pyval := PyTuple [PyNone; PyNone].

Section Effects.
Context {W : Type} `{Drivers W}.

(** Breaks a goal about [returns], [halts] or [never_raises] down along
    the code: through sequences and handlers, by cases on what a global
    holds. *)
Ltac leaf :=
  first [ apply returns_ret | apply returns_print | apply returns_read_globals
        | apply returns_write_globals | apply returns_call_total ].

Ltac walk :=
  repeat first
    [ progress intros
    | apply returns_bind | apply halts_bind
    | apply returns_try_except | apply halts_try_except
    | apply halts_finally
    | leaf
    | apply halts_call | apply halts_raise
    | apply returns_halts; leaf
    | match goal with
      | |- context [match ?x with Some _ => _ | None => _ end] => destruct x
      end ].

Lemma sleep_returns (secs : Q) : (0 <= secs)%Q -> returns (sleep secs).
Proof.
  intro P. unfold sleep.
  destruct (Qltb secs 0) eqn:E; [|walk].
  apply Qltb_iff in E. exfalso. exact (Qlt_not_le _ _ E P).
Qed.

Lemma sleep_halts (secs : Q) : halts (sleep secs).
Proof. unfold sleep. destruct (Qltb secs 0); walk. Qed.

Lemma cleanup_gpio_returns : returns cleanup_gpio.
Proof. unfold cleanup_gpio. walk. Qed.

Lemma init_gpio_returns : returns init_gpio.
Proof.
  unfold init_gpio. walk.
Qed.

Lemma measure_distance_never_raises (fuel : nat) :
  never_raises (measure_distance fuel).
Proof.
  unfold measure_distance.
  apply never_raises_bind; [apply returns_never_raises; walk|].
  intro g. destruct (gpio_handle g).
  - apply never_raises_try_except. intro e.
    apply returns_never_raises. walk.
  - apply returns_never_raises. walk.
Qed.

Lemma wait_for_button_press_never_raises (fuel : nat) :
  never_raises (wait_for_button_press fuel).
Proof.
  unfold wait_for_button_press.
  apply never_raises_bind; [apply returns_never_raises; walk|].
  intro g. destruct (gpio_handle g).
  - apply never_raises_bind; [apply returns_never_raises; walk|].
    intros _. apply never_raises_try_except. intro e.
    apply returns_never_raises. walk.
  - apply returns_never_raises. walk.
Qed.

Lemma beep_returns (duration : Q) : returns (beep duration).
Proof. unfold beep. walk. apply sleep_halts. Qed.

Lemma read_temperature_returns : returns read_temperature.
Proof. unfold read_temperature, construct. walk. Qed.

Lemma read_color_returns : returns read_color.
Proof.
  unfold read_color, construct. walk.
  repeat match goal with a : (_ * _)%type |- _ => destruct a end.
  walk.
Qed.

Lemma init_oled_returns : returns init_oled.
Proof. unfold init_oled. walk. Qed.

Lemma draw_lines_halts (lines : list string) : forall i,
  halts (draw_lines i lines).
Proof.
  induction lines as [|text rest IH]; intro i; simpl; walk. apply IH.
Qed.

Lemma oled_display_message_returns disp lines :
  returns (oled_display_message disp lines).
Proof.
  unfold oled_display_message. destruct disp; walk. apply draw_lines_halts.
Qed.

(** ** With no handle *)

Lemma measure_distance_no_handle (fuel : nat) (s : State) :
  gpio_handle (globals s) = None ->
  measure_distance fuel s =
    (Ret PyNone,
     mkState (world s)
       (EPrint "[ERROR] Distance sensor not available." :: trace s)
       (globals s)).
Proof.
  intro E. unfold measure_distance, bind, read_globals. now rewrite E.
Qed.

Lemma wait_for_button_press_no_handle (fuel : nat) (s : State) :
  gpio_handle (globals s) = None ->
  wait_for_button_press fuel s =
    (Ret (PyBool false),
     mkState (world s) (EPrint "[WARN] Button not available." :: trace s)
       (globals s)).
Proof.
  intro E. unfold wait_for_button_press, bind, read_globals. now rewrite E.
Qed.

Lemma beep_no_handle (duration : Q) (s : State) :
  gpio_handle (globals s) = None ->
  beep duration s =
    (Ret PyNone,
     mkState (world s) (EPrint "[WARN] Buzzer not available." :: trace s)
       (globals s)).
Proof.
  intro E. unfold beep, bind, read_globals. now rewrite E.
Qed.

Lemma oled_display_message_no_display (lines : list string) (s : State) :
  oled_display_message None lines s = (Ret PyNone, s).
Proof. reflexivity. Qed.

(** ** [cleanup_gpio], case by case *)

Lemma cleanup_gpio_no_handle (s : State) :
  gpio_handle (globals s) = None -> cleanup_gpio s = (Ret tt, s).
Proof.
  intro E. unfold cleanup_gpio, try_except, bind, read_globals.
  now rewrite E.
Qed.

Lemma cleanup_gpio_closes (s : State) h w' :
  gpio_handle (globals s) = Some h ->
  gpiochip_close h (world s) = (Fine tt, w') ->
  cleanup_gpio s =
    (Ret tt,
     mkState w'
       (EPrint "[INFO] GPIO cleaned up."
          :: ECall "lgpio.gpiochip_close" [PyInt h] :: trace s)
       (set_gpio_handle None (globals s))).
Proof.
  intros E C. unfold cleanup_gpio, try_except, bind, read_globals, call.
  rewrite E, C. reflexivity.
Qed.

Lemma cleanup_gpio_close_fails (s : State) h e w' :
  gpio_handle (globals s) = Some h ->
  gpiochip_close h (world s) = (Fails e, w') ->
  cleanup_gpio s =
    (Ret tt,
     mkState w'
       (EPrint ("[WARN] GPIO cleanup error: " ++ exn_msg e)
          :: ECall "lgpio.gpiochip_close" [PyInt h] :: trace s)
       (globals s)).
Proof.
  intros E C. unfold cleanup_gpio, try_except, bind, read_globals, call.
  rewrite E, C. reflexivity.
Qed.

(** ** [init_gpio] when the module is imported, case by case *)

Ltac run_init E :=
  unfold init_gpio, try_except, bind, read_globals, write_globals, call,
    print, ret;
  rewrite E; cbn.

(** Every call of the first attempt succeeds. *)
Lemma init_gpio_first_try (s : State) h w1 w2 w3 w4 w5 :
  gpio_handle (globals s) = None ->
  gpiochip_open 0 (world s) = (Fine h, w1) ->
  gpio_claim_output h TRIG w1 = (Fine tt, w2) ->
  gpio_claim_input h ECHO w2 = (Fine tt, w3) ->
  gpio_claim_output h BUZZER w3 = (Fine tt, w4) ->
  gpio_claim_input h BUTTON w4 = (Fine tt, w5) ->
  init_gpio s =
    (Ret tt,
     mkState w5
       (EPrint "[INFO] GPIO initialized successfully."
          :: ECall "lgpio.gpio_claim_input" [PyInt h; PyInt BUTTON]
          :: ECall "lgpio.gpio_claim_output" [PyInt h; PyInt BUZZER]
          :: ECall "lgpio.gpio_claim_input" [PyInt h; PyInt ECHO]
          :: ECall "lgpio.gpio_claim_output" [PyInt h; PyInt TRIG]
          :: ECall "lgpio.gpiochip_open" [PyInt 0] :: trace s)
       (set_gpio_handle (Some h) (globals s))).
Proof.
  intros E O C1 C2 C3 C4. run_init E.
  rewrite O; cbn. rewrite C1; cbn. rewrite C2; cbn. rewrite C3; cbn.
  rewrite C4; cbn. reflexivity.
Qed.

(** The first open fails and the one retry succeeds: the handle is held,
    and the run holds two opens, one sleep of half a second between them,
    and no claim. *)
Lemma init_gpio_recovers (s : State) e w1 h w3 :
  gpio_handle (globals s) = None ->
  gpiochip_open 0 (world s) = (Fails e, w1) ->
  gpiochip_open 0 (snd (time_sleep (5 # 10) w1)) = (Fine h, w3) ->
  init_gpio s =
    (Ret tt,
     mkState w3
       (EPrint "[INFO] GPIO recovered after error."
          :: ECall "lgpio.gpiochip_open" [PyInt 0]
          :: ECall "time.sleep" [PyFloat (5 # 10)]
          :: EPrint ("[WARN] GPIO init failed: " ++ exn_msg e)
          :: ECall "lgpio.gpiochip_open" [PyInt 0] :: trace s)
       (set_gpio_handle (Some h) (globals s))).
Proof.
  intros E O1 O2. run_init E. rewrite O1; cbn.
  unfold cleanup_gpio, try_except, bind, read_globals, ret; cbn.
  rewrite E; cbn. unfold call, total; cbn.
  destruct (time_sleep (5 # 10) w1) as [[] w2]; cbn in *.
  rewrite O2; cbn. reflexivity.
Qed.

(** The first open fails and so does the one retry: no handle. *)
Lemma init_gpio_degraded (s : State) e w1 e2 w3 :
  gpio_handle (globals s) = None ->
  gpiochip_open 0 (world s) = (Fails e, w1) ->
  gpiochip_open 0 (snd (time_sleep (5 # 10) w1)) = (Fails e2, w3) ->
  init_gpio s =
    (Ret tt,
     mkState w3
       (EPrint ("[ERROR] Unable to recover GPIO: " ++ exn_msg e2)
          :: ECall "lgpio.gpiochip_open" [PyInt 0]
          :: ECall "time.sleep" [PyFloat (5 # 10)]
          :: EPrint ("[WARN] GPIO init failed: " ++ exn_msg e)
          :: ECall "lgpio.gpiochip_open" [PyInt 0] :: trace s)
       (set_gpio_handle None (globals s))).
Proof.
  intros E O1 O2. run_init E. rewrite O1; cbn.
  unfold cleanup_gpio, try_except, bind, read_globals, ret; cbn.
  rewrite E; cbn. unfold call, total; cbn.
  destruct (time_sleep (5 # 10) w1) as [[] w2]; cbn in *.
  rewrite O2; cbn. reflexivity.
Qed.

(** ** The echo wait loops *)

(** The echo line, read through handle [h], stops reading [level] within
    [n] reads from world [w]: a read gives another level or fails.  The
    loop reads the clock after each read that gives [level]. *)
Inductive leaves_level (h level : Z) : nat -> W -> Prop :=
| leaves_now n w r w' :
    gpio_read h ECHO w = (r, w') -> r <> Fine level ->
    leaves_level h level (S n) w
| leaves_later n w w' :
    gpio_read h ECHO w = (Fine level, w') ->
    leaves_level h level n (snd (time_time w')) ->
    leaves_level h level (S n) w.

Lemma wait_echo_halts_iff (h level : Z) : forall fuel t (s : State),
  fst (wait_echo fuel h level t s) <> OutOfFuel
  <-> leaves_level h level fuel (world s).
Proof.
  induction fuel as [|fuel IH]; intros t s.
  - simpl. split; [intro N; now contradiction N|intro L; inversion L].
  - cbn [wait_echo]. unfold bind at 1. unfold call at 1.
    destruct (gpio_read h ECHO (world s)) as [[v|e] w'] eqn:R.
    + destruct (Z.eqb_spec v level) as [->|N].
      * unfold now, bind, call, total. cbn [world trace globals].
        destruct (time_time w') as [t' w''] eqn:T.
        rewrite IH. cbn [world].
        split; intro L.
        -- eapply leaves_later; [exact R|]. now rewrite T.
        -- inversion L; subst.
           ++ match goal with
              | A : gpio_read _ _ _ = _, B : gpio_read _ _ _ = _ |- _ =>
                  rewrite A in B; inversion B; subst
              end. congruence.
           ++ match goal with
              | A : gpio_read _ _ _ = _, B : gpio_read _ _ _ = _ |- _ =>
                  rewrite A in B; inversion B; subst
              end.
              match goal with
              | L' : leaves_level _ _ _ (snd (time_time _)) |- _ =>
                  now rewrite T in L'
              end.
      * cbn. split; [intros _|discriminate].
        eapply leaves_now; [exact R|]. congruence.
    + cbn. split; [intros _|discriminate].
      eapply leaves_now; [exact R|]. discriminate.
Qed.

Lemma wait_echo_steady (h level : Z) : forall n m t (s : State),
  (n <= m)%nat -> fst (wait_echo n h level t s) <> OutOfFuel ->
  wait_echo m h level t s = wait_echo n h level t s.
Proof.
  induction n as [|n IH]; intros m t s L N.
  - now contradiction N.
  - destruct m as [|m]; [lia|].
    cbn [wait_echo] in *. unfold bind at 1 in N. unfold bind at 1.
    unfold bind at 2.
    destruct (call "lgpio.gpio_read" [PyInt h; PyInt ECHO]
                (gpio_read h ECHO) s) as [[v|e|] s1]; try reflexivity.
    destruct (v =? level)%Z; [|reflexivity].
    unfold bind in *.
    destruct (now s1) as [[t'|e|] s2]; try reflexivity.
    apply IH; [lia|assumption].
Qed.

Lemma measure_distance_steady : steady measure_distance.
Proof.
  unfold measure_distance. apply steady_bind_const. intro g.
  destruct (gpio_handle g) as [h|]; [|apply steady_const].
  apply steady_try_except.
  do 4 (apply steady_bind_const; intro).
  apply steady_bind.
  { intros n m s L N. now apply wait_echo_steady. }
  intro start. apply steady_bind_const. intro t1.
  apply steady_bind.
  { intros n m s L N. now apply wait_echo_steady. }
  intro stop. apply steady_const.
Qed.

Ltac unbind :=
  repeat match goal with
         | E : bind _ _ _ = (Ret _, _) |- _ =>
             apply bind_Ret_inv in E;
             let a := fresh "a" in
             let s1 := fresh "s" in
             let E1 := fresh "E" in
             destruct E as (a & s1 & E1 & E)
         end.

(** What [measure_distance] hands back, when it does: [None], or a
    distance strictly inside the envelope, rounded to 2 digits. *)
Lemma measure_distance_value (fuel : nat) (s s' : State) v :
  measure_distance fuel s = (Ret v, s') ->
  v = PyNone \/
  exists d, v = PyFloat (round d 2) /\ (2 < d)%Q /\ (d < 400)%Q.
Proof.
  unfold measure_distance. intro E. unbind.
  destruct (gpio_handle a) as [h|].
  - apply try_except_Ret_inv in E. destruct E as [E|(e & s1 & _ & E)].
    + unbind.
      match type of E with
      | (if Qle_bool ?d 2 || Qle_bool 400 ?d then _ else _) _ = _ =>
          destruct (Qle_bool d 2) eqn:L1; destruct (Qle_bool 400 d) eqn:L2;
          cbn in E; inversion E; subst; auto;
          right; exists d; split; [reflexivity|];
          split; apply Qnot_le_lt; intro L;
          apply Qle_bool_iff in L; congruence
      end.
    + unbind. inversion E. now left.
  - unbind. inversion E. now left.
Qed.

(** ** The thermal read *)

Lemma finally_Ret_inv {A} (c : M (state W Globals) A)
    (f : M (state W Globals) unit) s s' a :
  finally c f s = (Ret a, s') ->
  exists s1, c s = (Ret a, s1) /\ f s1 = (Ret tt, s').
Proof.
  unfold finally.
  destruct (c s) as [[a'|e|] s1] eqn:C; try discriminate;
    destruct (f s1) as [[[]|e'|] s2] eqn:F; try discriminate.
  intro E. inversion E; subst. exists s1. split; [reflexivity|assumption].
Qed.

Lemma read_temperature_bus_fails (s : State) e w' :
  SMBus 1 (world s) = (Fails e, w') ->
  read_temperature s =
    (Ret none_pair,
     mkState w'
       (EPrint ("[WARN] MLX90614 read failed: " ++ exn_msg e)
          :: ECall "SMBus" [PyInt 1] :: trace s)
       (globals s)).
Proof.
  intro B. unfold read_temperature, try_except, bind, call.
  rewrite B. reflexivity.
Qed.

Lemma read_temperature_value (s s' : State) v :
  read_temperature s = (Ret v, s') ->
  v = none_pair \/
  exists a o, v = PyTuple [PyFloat (round a 2); PyFloat (round o 2)].
Proof.
  unfold read_temperature. intro E.
  apply try_except_Ret_inv in E. destruct E as [E|(e & s1 & _ & E)].
  - unbind. apply finally_Ret_inv in E. destruct E as (s2 & E & _).
    unbind. unfold ret in E. inversion E; subst. right.
    do 2 eexists. reflexivity.
  - unbind. inversion E. now left.
Qed.

(** ** The bus sensors and the chip handle *)

(** Runs both sides of an equation call by call. *)
Ltac run_calls :=
  repeat (cbn [world trace globals fst snd MLX90614_class TCS34725_class
               Adafruit_SSD1306 gpio_handle];
          match goal with
          | |- context [?f ?w] =>
              lazymatch type of (f w) with
              | (reply _ * W)%type => destruct (f w) as [[?|?] ?]
              end
          | |- context [match ?x with Some _ => _ | None => _ end] =>
              destruct x
          | |- context [match ?a with pair _ _ => _ end] =>
              is_var a; destruct a
          end).

Lemma read_temperature_ignores_handle (s : State) h :
  fst (read_temperature
         (mkState (world s) (trace s) (set_gpio_handle h (globals s))))
  = fst (read_temperature s).
Proof.
  unfold read_temperature, try_except, bind, finally, call, read_globals,
    construct, print, ret, raise, set_gpio_handle.
  run_calls; reflexivity.
Qed.

Lemma read_color_ignores_handle (s : State) h :
  fst (read_color
         (mkState (world s) (trace s) (set_gpio_handle h (globals s))))
  = fst (read_color s).
Proof.
  unfold read_color, try_except, bind, finally, call, read_globals,
    construct, print, ret, raise, set_gpio_handle.
  run_calls; reflexivity.
Qed.

End Effects.
End ChatgptFacts.

(* ================================================================== *)
(** * The two modules side by side *)
(* ================================================================== *)

Module Claims.
Import Py PyFacts.
Local Open Scope string_scope.

Section Both.
Context {W1 : Type} `{HwLayer.Drivers W1} `{HwLayer.Numerics}.
Context {W2 : Type} `{HwLayerChatgpt.Drivers W2}.




(** C8, as the code has it.  [cleanup_gpio] never raises, from any
    state, one where [init_gpio] never ran included.  With no handle it
    changes nothing.  With a handle whose close succeeds it records the
    handle as absent, and a second call then changes nothing.
    [cleanup_gpio_pins] of [hw_layer.py] never raises either, and leaves
    the globals alone. *)
Theorem cleanup_total_and_idempotent :
  (forall s : state W2 HwLayerChatgpt.Globals,
     fst (HwLayerChatgpt.cleanup_gpio s) = Ret tt) /\
  (forall s : state W2 HwLayerChatgpt.Globals,
     HwLayerChatgpt.gpio_handle (globals s) = None ->
     HwLayerChatgpt.cleanup_gpio s = (Ret tt, s)) /\
  (forall (s : state W2 HwLayerChatgpt.Globals) h w',
     HwLayerChatgpt.gpio_handle (globals s) = Some h ->
     HwLayerChatgpt.gpiochip_close h (world s) = (Fine tt, w') ->
     let s' := snd (HwLayerChatgpt.cleanup_gpio s) in
     HwLayerChatgpt.gpio_handle (globals s') = None /\
     world s' = w' /\
     HwLayerChatgpt.cleanup_gpio s' = (Ret tt, s')) /\
  (forall s : state W1 HwLayer.Globals,
     fst (HwLayer.cleanup_gpio_pins s) = Ret tt /\
     globals (snd (HwLayer.cleanup_gpio_pins s)) = globals s).
Proof.
  split.
  { intro s. destruct (HwLayerChatgpt.gpio_handle (globals s)) as [h|] eqn:E.
    - destruct (HwLayerChatgpt.gpiochip_close h (world s)) as [[[]|e] w'] eqn:C.
      + now rewrite (ChatgptFacts.cleanup_gpio_closes s E C).
      + now rewrite (ChatgptFacts.cleanup_gpio_close_fails s (e := e) E C).
    - now rewrite ChatgptFacts.cleanup_gpio_no_handle. }
  split; [intros; now apply ChatgptFacts.cleanup_gpio_no_handle|].
  split.
  { intros s h w' E C s'. subst s'.
    rewrite (ChatgptFacts.cleanup_gpio_closes s E C). cbn [snd].
    split; [reflexivity|]. split; [reflexivity|].
    now apply ChatgptFacts.cleanup_gpio_no_handle. }
  intro s. apply HwLayerFacts.cleanup_gpio_pins_returns.
Qed.

(** C9.  With no button line, the two modules answer with different
    fixed values: [read_button] of [hw_layer.py] gives [True],
    [wait_for_button_press] of [hw_layer_chatgpt.py] gives [False]. *)
Theorem button_defaults_differ :
  forall (s1 : state W1 HwLayer.Globals)
         (s2 : state W2 HwLayerChatgpt.Globals) (fuel : nat),
  HwLayer.button_obj (globals s1) = None ->
  HwLayerChatgpt.gpio_handle (globals s2) = None ->
  fst (HwLayer.read_button s1) = Ret (PyBool true) /\
  fst (HwLayerChatgpt.wait_for_button_press fuel s2) = Ret (PyBool false) /\
  fst (HwLayer.read_button s1)
    <> fst (HwLayerChatgpt.wait_for_button_press fuel s2).
Proof.
  intros s1 s2 fuel E1 E2.
  rewrite (HwLayerFacts.read_button_absent s1 E1).
  rewrite (ChatgptFacts.wait_for_button_press_no_handle fuel s2 E2).
  repeat split. discriminate.
Qed.

End Both.
End Claims.

(* ================================================================== *)
(** * Runs on the simulated worlds *)
(* ================================================================== *)

Module Runs.
Import Py PyFacts.
Local Open Scope string_scope.

(** ** The rig of [hw_layer.py] *)

(** Everything attached; the sensor reads 1 cm and then 500 cm. *)
Definition rig_out_of_range : HwLayer.State :=
  FakeRig.start FakeRig.all_globals
    (FakeRig.with_ranges [1 # 100; 5 # 1] FakeRig.bench).

(** Everything attached; four readings, the first one out of range. *)
Definition rig_in_range : HwLayer.State :=
  FakeRig.start FakeRig.all_globals
    (FakeRig.with_ranges [1 # 100; 52 # 100; 50 # 100; 51 # 100]
       FakeRig.bench).

(** Nothing attached, after the module has been imported. *)
Definition rig_unplugged : HwLayer.State :=
  snd (HwLayer.module_init (FakeRig.start FakeRig.no_globals FakeRig.unplugged)).

(** Everything attached; reading the thermal frame fails on the bus. *)
Definition rig_bus_error : HwLayer.State :=
  FakeRig.start FakeRig.all_globals
    (FakeRig.with_frame_error (mkExn OSError "Remote I/O error")
       FakeRig.bench).

(** ** The chip of [hw_layer_chatgpt.py] *)

(** The module once imported, [init_gpio] having run on chip [c]. *)
Definition chip_after_init (c : FakeChip.chip) : HwLayerChatgpt.State :=
  snd (HwLayerChatgpt.init_gpio (FakeChip.start FakeChip.fresh_globals c)).

(** The echo line reads low twice, high three times, then low. *)
Definition chip_echo : HwLayerChatgpt.State :=
  chip_after_init (FakeChip.with_echo [0; 0; 1; 1; 1; 0]%Z FakeChip.idle).

(** The chip refuses both opens of [init_gpio]. *)
Definition chip_degraded : HwLayerChatgpt.State :=
  chip_after_init (FakeChip.with_busy 2 FakeChip.idle).

(** The module holds handle 0, which the chip no longer knows: where
    [init_gpio] stands when, called again, it has closed the old handle
    and failed to open a new one, and calls [cleanup_gpio]. *)
Definition chip_stale : HwLayerChatgpt.State :=
  FakeChip.start
    (HwLayerChatgpt.set_gpio_handle (Some 0%Z) FakeChip.fresh_globals)
    FakeChip.idle.

(** [init_gpio] called a second time, on a chip that has become busy. *)
Definition chip_reinit_busy : HwLayerChatgpt.State :=
  let s := chip_after_init FakeChip.idle in
  snd (HwLayerChatgpt.init_gpio
         (mkState (FakeChip.with_busy 2 (world s)) [] (globals s))).

Lemma in_envelope_examples :
  map HwLayer.in_envelope [2; 2001 # 1000; 400; 3999 # 10; 1; 500]%Q
  = [false; true; false; true; false; false].
Proof. reflexivity. Qed.

Lemma module_init_unplugged : HwLayerFacts.all_absent (globals rig_unplugged).
Proof. repeat split. Qed.

Lemma chip_degraded_no_handle :
  HwLayerChatgpt.gpio_handle (globals chip_degraded) = None.
Proof. reflexivity. Qed.

(** The second [init_gpio] does meet the stale handle: its cleanup fails
    to close it. *)
Lemma reinit_meets_stale_handle :
  In (EPrint "[WARN] GPIO cleanup error: unknown handle")
     (trace chip_reinit_busy).
Proof. vm_compute. tauto. Qed.

(** ** A line stuck low *)

Lemma stuck_low_wait (h : Z) : forall fuel c tr g t,
  FakeChip.is_open h c = true ->
  FakeChip.echo c = [] ->
  FakeChip.echo_idle c = 0%Z ->
  fst (HwLayerChatgpt.wait_echo fuel h 0 t (mkState c tr g)) = OutOfFuel.
Proof.
  induction fuel as [|fuel IH]; intros c tr g t O E I; [reflexivity|].
  cbn [HwLayerChatgpt.wait_echo]. unfold bind at 1, call at 1.
  cbn [world trace globals HwLayerChatgpt.gpio_read FakeChip.chip_drivers].
  unfold FakeChip.read. rewrite O, E, I. cbn [Z.eqb HwLayerChatgpt.ECHO Pos.eqb].
  unfold HwLayerChatgpt.now, bind, call, total.
  cbn [world trace globals HwLayerChatgpt.time_time FakeChip.chip_drivers].
  apply IH; [exact O|reflexivity|reflexivity].
Qed.

Lemma stuck_low_measure (h : Z) : forall fuel c tr g,
  HwLayerChatgpt.gpio_handle g = Some h ->
  FakeChip.is_open h c = true ->
  FakeChip.echo c = [] ->
  FakeChip.echo_idle c = 0%Z ->
  fst (HwLayerChatgpt.measure_distance fuel (mkState c tr g)) = OutOfFuel.
Proof.
  intros fuel c tr g G O E I.
  unfold HwLayerChatgpt.measure_distance, bind at 1, read_globals.
  cbn [globals]. rewrite G. unfold try_except.
  unfold bind at 1, call at 1.
  cbn [world trace globals HwLayerChatgpt.gpio_write FakeChip.chip_drivers].
  unfold FakeChip.write at 1. rewrite O.
  unfold bind at 1. unfold HwLayerChatgpt.sleep.
  change (Qltb (1 # 100000) 0) with false. cbv iota.
  unfold call at 1, total.
  cbn [world trace globals HwLayerChatgpt.time_sleep FakeChip.chip_drivers
       FakeChip.pass].
  unfold bind at 1, call at 1.
  cbn [world trace globals HwLayerChatgpt.gpio_write FakeChip.chip_drivers].
  unfold FakeChip.write at 1.
  match goal with
  | |- context [FakeChip.is_open h ?c'] =>
      replace (FakeChip.is_open h c') with true by (symmetry; exact O)
  end.
  unfold bind at 1, HwLayerChatgpt.now at 1, call at 1, total.
  cbn [world trace globals HwLayerChatgpt.time_time FakeChip.chip_drivers].
  unfold bind at 1.
  match goal with
  | |- context [HwLayerChatgpt.wait_echo fuel h 0 ?t (mkState ?c' ?tr' ?g')] =>
      pose proof (@stuck_low_wait h fuel c' tr' g' t O E I) as S;
      destruct (HwLayerChatgpt.wait_echo fuel h 0 t (mkState c' tr' g'))
        as [r s'] eqn:R
  end.
  cbn [fst] in S. subst r. reflexivity.
Qed.

(** ** Where the specification and the code part *)



(** C3, on the chip: the first open fails, the retry succeeds.  The
    handle is held, after two opens and one sleep of half a second, but
    the recovery claims no pin; a first attempt that succeeds claims all
    four. *)
Theorem init_gpio_recovery_claims_no_pin :
  let s := chip_after_init (FakeChip.with_busy 1 FakeChip.idle) in
  let ok := chip_after_init FakeChip.idle in
  HwLayerChatgpt.gpio_handle (globals s) = Some 0%Z /\
  FakeChip.claimed (world s) = [] /\
  filter ChatgptFacts.is_claim (trace s) = [] /\
  List.length (filter ChatgptFacts.is_open_call (trace s)) = 2%nat /\
  In (ECall "time.sleep" [PyFloat (5 # 10)]) (trace s) /\
  HwLayerChatgpt.gpio_handle (globals ok) = Some 0%Z /\
  FakeChip.claimed (world ok)
    = [(0, HwLayerChatgpt.BUTTON); (0, HwLayerChatgpt.BUZZER);
       (0, HwLayerChatgpt.ECHO); (0, HwLayerChatgpt.TRIG)]%Z.
Proof.
  cbv zeta. repeat split; try reflexivity. vm_compute. tauto.
Qed.



(** C8: the handle held is one the chip no longer knows; [cleanup_gpio]
    returns, and the handle is still recorded. *)
Lemma cleanup_keeps_stale_handle :
  fst (HwLayerChatgpt.cleanup_gpio chip_stale) = Ret tt /\
  HwLayerChatgpt.gpio_handle
    (globals (snd (HwLayerChatgpt.cleanup_gpio chip_stale))) = Some 0%Z /\
  HwLayerChatgpt.gpio_handle
    (globals (snd (HwLayerChatgpt.cleanup_gpio chip_stale))) <> None.
Proof.
  split; [reflexivity|]. split; [reflexivity|]. discriminate.
Qed.

(** ** The theorems at work on the simulated worlds *)


(** C10 on the rig: both readings fall outside the envelope. *)
Lemma measure_distance_zero_pair_witness :
  (exists readings s',
     HwLayer.read_samples (Z.to_nat 2) rig_out_of_range = (Ret readings, s') /\
     forall r, In r readings -> ~ ((2 < r)%Q /\ (r < 400)%Q)) /\
  fst (HwLayer.measure_distance 2 rig_out_of_range)
    = Ret (PyTuple [PyInt 0; PyInt 0]).
Proof.
  assert (H : exists readings s',
            HwLayer.read_samples (Z.to_nat 2) rig_out_of_range
              = (Ret readings, s') /\
            forall r, In r readings -> ~ ((2 < r)%Q /\ (r < 400)%Q)).
  { eexists. eexists. split; [reflexivity|].
    intros r [<-|[<-|[]]] [A B]; [revert A|revert B]; unfold Qlt; cbn; lia. }
  split; [exact H|].
  exact (@HwLayerFacts.measure_distance_zero_pair_ambiguous _ _ _ 2
           rig_out_of_range (or_intror (or_intror H))).
Defined.




(** C8 on the chip, the handle open: the first call closes it, the
    second changes nothing. *)
Lemma cleanup_total_and_idempotent_witness :
  HwLayerChatgpt.gpio_handle (globals (chip_after_init FakeChip.idle))
    = Some 0%Z /\
  HwLayerChatgpt.gpiochip_close 0 (world (chip_after_init FakeChip.idle))
    = (Fine tt,
       snd (FakeChip.close 0 (world (chip_after_init FakeChip.idle)))) /\
  HwLayerChatgpt.gpio_handle
    (globals (snd (HwLayerChatgpt.cleanup_gpio
                     (chip_after_init FakeChip.idle)))) = None /\
  HwLayerChatgpt.cleanup_gpio
    (snd (HwLayerChatgpt.cleanup_gpio (chip_after_init FakeChip.idle)))
  = (Ret tt,
     snd (HwLayerChatgpt.cleanup_gpio (chip_after_init FakeChip.idle))).
Proof.
  assert (H1 : HwLayerChatgpt.gpio_handle
                 (globals (chip_after_init FakeChip.idle)) = Some 0%Z)
    by (vm_compute; reflexivity).
  assert (H2 : HwLayerChatgpt.gpiochip_close 0
                 (world (chip_after_init FakeChip.idle))
               = (Fine tt,
                  snd (FakeChip.close 0
                         (world (chip_after_init FakeChip.idle)))))
    by (vm_compute; reflexivity).
  pose proof (proj1 (proj2 (proj2 (@Claims.cleanup_total_and_idempotent
                                     FakeRig.rig _ _ _)))
                (chip_after_init FakeChip.idle) _ _ H1 H2) as T.
  cbv zeta in T. destruct T as (T1 & _ & T3).
  split; [exact H1|]. split; [exact H2|]. split; [exact T1|exact T3].
Defined.

(** C9 on the rig with nothing attached and the chip that refuses. *)
Lemma button_defaults_differ_witness :
  HwLayer.button_obj (globals rig_unplugged) = None /\
  HwLayerChatgpt.gpio_handle (globals chip_degraded) = None /\
  fst (HwLayer.read_button rig_unplugged) = Ret (PyBool true) /\
  fst (HwLayerChatgpt.wait_for_button_press 3 chip_degraded)
    = Ret (PyBool false) /\
  fst (HwLayer.read_button rig_unplugged)
    <> fst (HwLayerChatgpt.wait_for_button_press 3 chip_degraded).
Proof.
  assert (H1 : HwLayer.button_obj (globals rig_unplugged) = None)
    by reflexivity.
  split; [exact H1|]. split; [exact chip_degraded_no_handle|].
  exact (@Claims.button_defaults_differ _ _ _ _ rig_unplugged chip_degraded
           3 H1 chip_degraded_no_handle).
Defined.

End Runs.

(* ================================================================== *)
(** * Beyond the claims: what a run leaves untouched *)
(* ================================================================== *)

Module Frame.
Import Py PyFacts.

(** [keeps_globals c]: whatever [c] does and however it ends, the
    module's global variables are afterwards what they were. *)
Definition keeps_globals {W G A} (c : M (state W G) A) : Prop :=
  forall s, globals (snd (c s)) = globals s.

(** How many events of a kind a trace holds. *)
Definition count (p : event -> bool) (tr : list event) : nat :=
  List.length (filter p tr).

(** [adds_at_most p n c]: a run of [c] adds at most [n] events of kind
    [p] to the trace. *)
Definition adds_at_most {W G A} (p : event -> bool) (n : nat)
    (c : M (state W G) A) : Prop :=
  forall s, (count p (trace (snd (c s))) <= count p (trace s) + n)%nat.

Section Rules.
Context {W G : Type}.

Lemma keeps_ret {A} (a : A) : keeps_globals (ret a : M (state W G) A).
Proof. intro s. reflexivity. Qed.

Lemma keeps_raise {A} e : keeps_globals (raise e : M (state W G) A).
Proof. intro s. reflexivity. Qed.

Lemma keeps_out_of_fuel {A} : keeps_globals (out_of_fuel : M (state W G) A).
Proof. intro s. reflexivity. Qed.

Lemma keeps_print line : keeps_globals (print line : M (state W G) unit).
Proof. intro s. reflexivity. Qed.

Lemma keeps_read_globals : keeps_globals (read_globals : M (state W G) G).
Proof. intro s. reflexivity. Qed.

Lemma keeps_call {A} fn args (f : W -> reply A * W) :
  keeps_globals (call fn args f : M (state W G) A).
Proof. intro s. unfold call. now destruct (f (world s)). Qed.

Lemma keeps_bind {A B} (c : M (state W G) A) (k : A -> M (state W G) B) :
  keeps_globals c -> (forall a, keeps_globals (k a)) ->
  keeps_globals (bind c k).
Proof.
  intros Hc Hk s. unfold bind. specialize (Hc s).
  destruct (c s) as [[a|e|] s1]; cbn [snd] in *; try assumption.
  now rewrite Hk.
Qed.

Lemma keeps_try_except {A} (c : M (state W G) A) h :
  keeps_globals c -> (forall e, keeps_globals (h e)) ->
  keeps_globals (try_except c h).
Proof.
  intros Hc Hh s. unfold try_except. specialize (Hc s).
  destruct (c s) as [[a|e|] s1]; cbn [snd] in *; try assumption.
  now rewrite Hh.
Qed.

Lemma keeps_try_except_OSError {A} (c : M (state W G) A) h :
  keeps_globals c -> keeps_globals h ->
  keeps_globals (try_except_OSError c h).
Proof.
  intros Hc Hh s. unfold try_except_OSError. specialize (Hc s).
  destruct (c s) as [[a|e|] s1]; cbn [snd] in *; try assumption.
  destruct (is_OSError e); cbn [snd]; [now rewrite Hh|assumption].
Qed.

Lemma keeps_finally {A} (c : M (state W G) A) f :
  keeps_globals c -> keeps_globals f -> keeps_globals (finally c f).
Proof.
  intros Hc Hf s. unfold finally. specialize (Hc s).
  destruct (c s) as [[a|e|] s1]; cbn [snd] in *; try assumption;
    specialize (Hf s1); destruct (f s1) as [[u|e'|] s2]; cbn [snd] in *;
    congruence.
Qed.

Section Counting.
Variable p : event -> bool.

Lemma adds_weaken {A} n m (c : M (state W G) A) :
  adds_at_most p n c -> (n <= m)%nat -> adds_at_most p m c.
Proof. intros Hc L s. specialize (Hc s). lia. Qed.

Lemma adds_ret {A} (a : A) : adds_at_most p 0 (ret a : M (state W G) A).
Proof. intro s. cbn. lia. Qed.

Lemma adds_raise {A} e : adds_at_most p 0 (raise e : M (state W G) A).
Proof. intro s. cbn. lia. Qed.

Lemma adds_read_globals : adds_at_most p 0 (read_globals : M (state W G) G).
Proof. intro s. cbn. lia. Qed.

Lemma adds_print line :
  p (EPrint line) = false -> adds_at_most p 0 (print line : M (state W G) unit).
Proof. intros E s. unfold count. cbn. rewrite E. lia. Qed.

Lemma adds_call_other {A} fn args (f : W -> reply A * W) :
  p (ECall fn args) = false ->
  adds_at_most p 0 (call fn args f : M (state W G) A).
Proof.
  intros E s. unfold count, call. destruct (f (world s)). cbn.
  rewrite E. lia.
Qed.

Lemma adds_call {A} fn args (f : W -> reply A * W) :
  adds_at_most p 1 (call fn args f : M (state W G) A).
Proof.
  intro s. unfold count, call. destruct (f (world s)). cbn.
  destruct (p (ECall fn args)); cbn; lia.
Qed.

Lemma adds_bind {A B} n m (c : M (state W G) A) (k : A -> M (state W G) B) :
  adds_at_most p n c -> (forall a, adds_at_most p m (k a)) ->
  adds_at_most p (n + m) (bind c k).
Proof.
  intros Hc Hk s. unfold bind. specialize (Hc s).
  destruct (c s) as [[a|e|] s1]; cbn [snd] in *; try lia.
  specialize (Hk a s1). lia.
Qed.

Lemma adds_try_except {A} n m (c : M (state W G) A) h :
  adds_at_most p n c -> (forall e, adds_at_most p m (h e)) ->
  adds_at_most p (n + m) (try_except c h).
Proof.
  intros Hc Hh s. unfold try_except. specialize (Hc s).
  destruct (c s) as [[a|e|] s1]; cbn [snd] in *; try lia.
  specialize (Hh e s1). lia.
Qed.

End Counting.
End Rules.

(** Follows the code through sequences, handlers and tests. *)
Ltac frame :=
  repeat first
    [ progress intros
    | apply keeps_bind | apply keeps_try_except
    | apply keeps_try_except_OSError | apply keeps_finally
    | apply keeps_ret | apply keeps_raise | apply keeps_out_of_fuel
    | apply keeps_print | apply keeps_read_globals | apply keeps_call
    | match goal with
      | |- context [match ?x with Some _ => _ | None => _ end] => destruct x
      | |- context [if ?b then _ else _] => destruct b
      | a : (_ * _)%type |- _ => destruct a
      end ].

(** Takes a run that returned apart, step by step. *)
Ltac unbind :=
  repeat match goal with
         | E : bind _ _ _ = (Ret _, _) |- _ =>
             apply bind_Ret_inv in E;
             let a := fresh "a" in
             let s1 := fresh "s" in
             let E1 := fresh "E" in
             destruct E as (a & s1 & E1 & E)
         end.

(** By cases on what a call into a driver answers. *)
Ltac case_call c :=
  let E := fresh "E" in
  lazymatch type of c with
  | (reply _ * _)%type => destruct c as [[?|?] ?] eqn:E
  | (unit * _)%type => destruct c as [[] ?] eqn:E
  end.

(** Gives each name of a call and each line of output a short name, so
    that the cases stay small. *)
Ltac hide_strings :=
  repeat match goal with
         | |- context [ECall ?fn _] =>
             lazymatch fn with
             | String _ _ => let n := fresh "fn" in set (n := fn) in *
             end
         | |- context [EPrint ?l] =>
             lazymatch l with
             | String _ _ => let n := fresh "line" in set (n := l) in *
             end
         | |- context [EPrint (String.append ?p _)] =>
             lazymatch p with
             | String _ _ => let n := fresh "line" in set (n := p) in *
             end
         end.

End Frame.

(* ================================================================== *)
(** * Beyond the claims: rounding and averaging stay inside the bounds *)
(* ================================================================== *)

Module Rounding.
Import Py PyFacts.

Lemma round_half_even_between (a b : Z) (y : Q) :
  (inject_Z a <= y)%Q -> (y <= inject_Z b)%Q ->
  (a <= round_half_even y <= b)%Z.
Proof.
  intros L U.
  assert (Fa : (a <= Qfloor y)%Z).
  { rewrite <- (Qfloor_Z a). now apply Qfloor_resp_le. }
  assert (Fb : (Qfloor y <= b)%Z).
  { rewrite <- (Qfloor_Z b). now apply Qfloor_resp_le. }
  unfold round_half_even.
  destruct (Qltb (y - inject_Z (Qfloor y)) (1 # 2)) eqn:E; [lia|].
  assert (Qfloor y <> b) as N.
  { intro X. rewrite X in E.
    assert (Qltb (y - inject_Z b) (1 # 2) = true) as T
      by (apply Qltb_iff; lra).
    congruence. }
  destruct (Qgtb _ _); [lia|]. destruct (Z.even _); lia.
Qed.

(** Rounding to 2 digits keeps a number between 2 and 400 there. *)
Lemma round2_between (x : Q) :
  (2 <= x)%Q -> (x <= 400)%Q -> (2 <= round x 2)%Q /\ (round x 2 <= 400)%Q.
Proof.
  intros L U.
  destruct (@round_half_even_between 200 40000 (x * inject_Z 100)) as [A B].
  - change (inject_Z 200) with (200 # 1). change (inject_Z 100) with (100 # 1).
    lra.
  - change (inject_Z 40000) with (40000 # 1).
    change (inject_Z 100) with (100 # 1). lra.
  - change (round x 2) with (Qmake (round_half_even (x * inject_Z 100)) 100).
    unfold Qle. cbn [Qnum Qden]. lia.
Qed.

Lemma Qsum_between (lo hi : Q) (l : list Q) :
  (forall r, In r l -> (lo <= r)%Q /\ (r <= hi)%Q) ->
  (lo * inject_Z (Z.of_nat (List.length l)) <= Qsum l)%Q /\
  (Qsum l <= hi * inject_Z (Z.of_nat (List.length l)))%Q.
Proof.
  induction l as [|a l IH]; intro B.
  - cbn [List.length Qsum fold_right Z.of_nat].
    change (inject_Z 0) with 0%Q. lra.
  - destruct (B a (or_introl eq_refl)) as [La Ua].
    destruct IH as [Ls Us]; [intros r I; apply B; now right|].
    cbn [List.length Qsum fold_right].
    rewrite Nat2Z.inj_succ. unfold Z.succ. rewrite inject_Z_plus.
    change (fold_right Qplus 0%Q l) with (Qsum l).
    change (inject_Z 1) with 1%Q. lra.
Qed.

(** The mean of a list that is not empty lies between any two bounds on
    its elements. *)
Lemma mean_between (lo hi : Q) (l : list Q) :
  l <> [] ->
  (forall r, In r l -> (lo <= r)%Q /\ (r <= hi)%Q) ->
  (lo <= mean l)%Q /\ (mean l <= hi)%Q.
Proof.
  intros N B. destruct (@Qsum_between lo hi l B) as [Ls Us].
  assert (P : (0 < inject_Z (Z.of_nat (List.length l)))%Q).
  { destruct l; [congruence|]. cbn [List.length].
    change 0%Q with (inject_Z 0). rewrite <- Zlt_Qlt. lia. }
  unfold mean. split.
  - now apply Qle_shift_div_l.
  - apply Qle_shift_div_r; [exact P|exact Us].
Qed.

End Rounding.

(* ================================================================== *)
(** * Beyond the claims: [hw_layer_chatgpt.py] *)
(* ================================================================== *)

Module ChatgptMore.
Import Py PyFacts Frame HwLayerChatgpt.
Local Open Scope string_scope.

Section Effects.
Context {W : Type} `{Drivers W}.

Lemma sleep_keeps_globals (secs : Q) : keeps_globals (sleep secs).
Proof. unfold sleep. frame. Qed.

Lemma wait_echo_keeps_globals (h level : Z) : forall fuel t,
  keeps_globals (wait_echo fuel h level t).
Proof.
  induction fuel as [|fuel IH]; intro t; cbn [wait_echo]; frame;
    first [apply IH | unfold now; frame].
Qed.

Lemma poll_button_keeps_globals (h : Z) : forall fuel,
  keeps_globals (poll_button fuel h).
Proof.
  induction fuel as [|fuel IH]; cbn [poll_button]; frame;
    first [apply IH | apply sleep_keeps_globals].
Qed.

Lemma draw_lines_keeps_globals (lines : list string) : forall i,
  keeps_globals (draw_lines i lines).
Proof.
  induction lines as [|text rest IH]; intro i; cbn [draw_lines]; frame.
  apply IH.
Qed.

(** X2.  Only [init_gpio] and [cleanup_gpio] ever assign the handle: the
    distance, button, buzzer, thermal, colour and display functions leave
    every global of the module as it was, however the hardware answers
    and however they end. *)
Theorem adapters_keep_the_handle :
  forall (s : state W Globals) (fuel : nat) (duration : Q)
         (disp : option obj) (lines : list string),
  globals (snd (measure_distance fuel s)) = globals s /\
  globals (snd (wait_for_button_press fuel s)) = globals s /\
  globals (snd (beep duration s)) = globals s /\
  globals (snd (read_temperature s)) = globals s /\
  globals (snd (read_color s)) = globals s /\
  globals (snd (init_oled s)) = globals s /\
  globals (snd (oled_display_message disp lines s)) = globals s.
Proof.
  intros s fuel duration disp lines.
  repeat split.
  - revert s. change (keeps_globals (measure_distance fuel)).
    unfold measure_distance. frame;
      first [apply sleep_keeps_globals | apply wait_echo_keeps_globals
            | unfold now; frame].
  - revert s. change (keeps_globals (wait_for_button_press fuel)).
    unfold wait_for_button_press. frame. apply poll_button_keeps_globals.
  - revert s. change (keeps_globals (beep duration)).
    unfold beep. frame. apply sleep_keeps_globals.
  - revert s. change (keeps_globals read_temperature).
    unfold read_temperature, construct. frame.
  - revert s. change (keeps_globals read_color).
    unfold read_color, construct. frame.
  - revert s. change (keeps_globals init_oled).
    unfold init_oled. frame.
  - revert s. change (keeps_globals (oled_display_message disp lines)).
    unfold oled_display_message. frame. apply draw_lines_keeps_globals.
Qed.

(** X1.  No function of the module lets an exception out, whatever the
    drivers do: initialisation, cleanup, the buzzer, the two bus sensors
    and the display always hand back a value, and the two functions that
    wait on a line either hand back a value or are still waiting. *)
Theorem no_exception_escapes :
  forall (s : state W Globals) (fuel : nat) (duration : Q)
         (disp : option obj) (lines : list string),
  fst (init_gpio s) = Ret tt /\
  fst (cleanup_gpio s) = Ret tt /\
  fst (beep duration s) = Ret PyNone /\
  (exists v, fst (read_temperature s) = Ret v) /\
  (exists v, fst (read_color s) = Ret v) /\
  (exists d, fst (init_oled s) = Ret d) /\
  fst (oled_display_message disp lines s) = Ret PyNone /\
  (forall e, fst (measure_distance fuel s) <> Raise e) /\
  (forall e, fst (wait_for_button_press fuel s) <> Raise e).
Proof.
  intros s fuel duration disp lines.
  split.
  { destruct (ChatgptFacts.init_gpio_returns s) as [[] E]. exact E. }
  split.
  { destruct (ChatgptFacts.cleanup_gpio_returns s) as [[] E]. exact E. }
  split.
  { destruct (ChatgptFacts.beep_returns duration s) as [v E].
    rewrite E. f_equal.
    destruct (beep duration s) as [r s'] eqn:B. cbn [fst] in E. subst r.
    unfold beep in B. unbind.
    destruct (gpio_handle a).
    - apply try_except_Ret_inv in B. destruct B as [B|(e & s1 & _ & B)];
        unbind; unfold ret in B; now inversion B.
    - unbind. unfold ret in B. now inversion B. }
  split; [apply ChatgptFacts.read_temperature_returns|].
  split; [apply ChatgptFacts.read_color_returns|].
  split; [apply ChatgptFacts.init_oled_returns|].
  split.
  { destruct (ChatgptFacts.oled_display_message_returns disp lines s)
      as [v E].
    rewrite E. f_equal.
    destruct (oled_display_message disp lines s) as [r s'] eqn:B.
    cbn [fst] in E. subst r.
    unfold oled_display_message in B. destruct disp.
    - apply try_except_Ret_inv in B. destruct B as [B|(e & s1 & _ & B)];
        unbind; unfold ret in B; now inversion B.
    - unfold ret in B. now inversion B. }
  split;
    [apply ChatgptFacts.measure_distance_never_raises
    |apply ChatgptFacts.wait_for_button_press_never_raises].
Qed.

(** ** How [init_gpio] ends *)

Definition is_sleep_call (e : event) : bool :=
  match e with
  | ECall fn _ => String.eqb fn "time.sleep"
  | EPrint _ => false
  end.

(** Runs the code call by call, by cases on what each call answers. *)
Ltac by_calls :=
  repeat (cbn [world trace globals fst snd gpio_handle MLX90614_class
               TCS34725_class Adafruit_SSD1306];
          match goal with
          | |- context [gpiochip_close ?h ?w] => case_call (gpiochip_close h w)
          | |- context [gpiochip_open ?n ?w] => case_call (gpiochip_open n w)
          | |- context [gpio_claim_output ?h ?p ?w] =>
              case_call (gpio_claim_output h p w)
          | |- context [gpio_claim_input ?h ?p ?w] =>
              case_call (gpio_claim_input h p w)
          | |- context [gpio_write ?h ?p ?v ?w] =>
              case_call (gpio_write h p v w)
          | |- context [gpio_read ?h ?p ?w] => case_call (gpio_read h p w)
          | |- context [time_sleep ?q ?w] => case_call (time_sleep q w)
          | |- context [match ?x with Some _ => _ | None => _ end] =>
              let E := fresh "E" in destruct x eqn:E
          end).

Ltac open_init :=
  unfold init_gpio, cleanup_gpio, sleep, try_except, bind, read_globals,
    write_globals, call, print, ret, raise, total, set_gpio_handle;
  change (Qltb (5 # 10) 0) with false; cbv iota; hide_strings.

(** X3.  [init_gpio] ends in one of three ways, told apart by its last line
    of output.  Either it printed "initialized successfully": then a
    handle is held and the last five calls were the open and the four pin
    claims, trigger as output, echo as input, buzzer as output, button as
    input.  Or it printed "recovered after error": then a handle is held
    and the last calls were the half-second sleep and the second open.  Or
    it printed "Unable to recover": then no handle is held. *)
Theorem init_gpio_ends_three_ways :
  forall s : state W Globals,
  let s' := snd (init_gpio s) in
  (exists h rest,
     gpio_handle (globals s') = Some h /\
     trace s' =
       EPrint "[INFO] GPIO initialized successfully."
         :: ECall "lgpio.gpio_claim_input" [PyInt h; PyInt BUTTON]
         :: ECall "lgpio.gpio_claim_output" [PyInt h; PyInt BUZZER]
         :: ECall "lgpio.gpio_claim_input" [PyInt h; PyInt ECHO]
         :: ECall "lgpio.gpio_claim_output" [PyInt h; PyInt TRIG]
         :: ECall "lgpio.gpiochip_open" [PyInt 0] :: rest) \/
  (exists h rest,
     gpio_handle (globals s') = Some h /\
     trace s' =
       EPrint "[INFO] GPIO recovered after error."
         :: ECall "lgpio.gpiochip_open" [PyInt 0]
         :: ECall "time.sleep" [PyFloat (5 # 10)] :: rest) \/
  (exists e rest,
     gpio_handle (globals s') = None /\
     trace s' =
       EPrint ("[ERROR] Unable to recover GPIO: " ++ exn_msg e)
         :: ECall "lgpio.gpiochip_open" [PyInt 0]
         :: ECall "time.sleep" [PyFloat (5 # 10)] :: rest).
Proof.
  intros s s'. subst s'. open_init. by_calls;
    first
      [ left; do 2 eexists; split; reflexivity
      | right; left; do 2 eexists; split; reflexivity
      | right; right; do 2 eexists; split; reflexivity ].
Qed.

(** X4.  However the chip answers, one call of [init_gpio] opens it at least
    once and at most twice, sleeps at most once and claims at most four
    pins. *)
Theorem init_gpio_retries_once :
  forall s : state W Globals,
  let before := trace s in
  let after := trace (snd (init_gpio s)) in
  (count ChatgptFacts.is_open_call before + 1
     <= count ChatgptFacts.is_open_call after
     <= count ChatgptFacts.is_open_call before + 2)%nat /\
  (count is_sleep_call after <= count is_sleep_call before + 1)%nat /\
  (count ChatgptFacts.is_claim after
     <= count ChatgptFacts.is_claim before + 4)%nat.
Proof.
  intros s before after. subst before after. open_init. by_calls;
    unfold count;
    repeat match goal with n := String _ _ |- _ => subst n end;
    cbn; lia.
Qed.


(** X5.  If the chip refuses every open, [init_gpio] ends with no handle,
    whatever handle was held before and whatever else the chip does. *)
Theorem init_gpio_permanent_failure :
  (forall w : W, exists e w', gpiochip_open 0 w = (Fails e, w')) ->
  forall s : state W Globals,
  gpio_handle (globals (snd (init_gpio s))) = None.
Proof.
  intros Hfail s. open_init. by_calls; try reflexivity;
    match goal with
    | E : gpiochip_open 0 ?w = (Fine _, _) |- _ =>
        destruct (Hfail w) as (? & ? & F); rewrite F in E; discriminate
    end.
Qed.

(** ** Waiting for the button *)

(** Within [n] reads from world [w], a read of the button line through
    handle [h] gives a level other than 1, every read before it having
    given 1.  The loop sleeps a twentieth of a second after each read
    that gives 1. *)
Inductive pressed_within (h : Z) : nat -> W -> Prop :=
| pressed_now n w v w' :
    gpio_read h BUTTON w = (Fine v, w') -> v <> 1%Z ->
    pressed_within h (S n) w
| pressed_later n w w' :
    gpio_read h BUTTON w = (Fine 1%Z, w') ->
    pressed_within h n (snd (time_sleep (5 # 100) w')) ->
    pressed_within h (S n) w.

Lemma poll_button_Ret_iff (h : Z) : forall fuel (s : state W Globals),
  fst (poll_button fuel h s) = Ret tt <-> pressed_within h fuel (world s).
Proof.
  induction fuel as [|fuel IH]; intro s.
  - cbn. split; [discriminate|intro P; inversion P].
  - cbn [poll_button]. unfold bind at 1, call at 1.
    destruct (gpio_read h BUTTON (world s)) as [[v|e] w'] eqn:R.
    + destruct (Z.eqb_spec v 1) as [->|N].
      * unfold sleep. change (Qltb (5 # 100) 0) with false. cbv iota.
        unfold bind, call, total. cbn [world trace globals].
        destruct (time_sleep (5 # 100) w') as [[] w''] eqn:T.
        rewrite IH. cbn [world].
        split; intro P.
        -- eapply pressed_later; [exact R|]. now rewrite T.
        -- inversion P; subst;
             match goal with
             | A : gpio_read _ _ _ = _, B : gpio_read _ _ _ = _ |- _ =>
                 rewrite A in B; inversion B; subst
             end; [congruence|].
           match goal with
           | P' : pressed_within _ _ (snd (time_sleep _ _)) |- _ =>
               now rewrite T in P'
           end.
      * cbn. split; [intros _|reflexivity].
        eapply pressed_now; [exact R|exact N].
    + cbn. split; [discriminate|].
      intro P. inversion P; subst;
        match goal with
        | A : gpio_read _ _ _ = _, B : gpio_read _ _ _ = _ |- _ =>
            rewrite A in B; discriminate
        end.
Qed.

Lemma poll_button_steady (h : Z) : steady (fun n => poll_button n h).
Proof.
  intros n. induction n as [|n IH]; intros m s L N.
  - now contradiction N.
  - destruct m as [|m]; [lia|].
    cbn [poll_button] in *. unfold bind at 1 in N. unfold bind at 1.
    unfold bind at 2.
    destruct (call "lgpio.gpio_read" [PyInt h; PyInt BUTTON]
                (gpio_read h BUTTON) s) as [[v|e|] s1]; try reflexivity.
    destruct (v =? 1)%Z; [|reflexivity].
    unfold bind in *.
    destruct (sleep (5 # 100) s1) as [[[]|e|] s2]; try reflexivity.
    apply IH; [lia|assumption].
Qed.

Lemma wait_for_button_press_steady : steady wait_for_button_press.
Proof.
  unfold wait_for_button_press. apply steady_bind_const. intro g.
  destruct (gpio_handle g) as [h|]; [|apply steady_const].
  apply steady_bind_const. intros _.
  apply steady_try_except.
  apply steady_bind; [apply poll_button_steady|].
  intros _. apply steady_const.
Qed.

(** X6.  With a handle, [wait_for_button_press] returns [True] exactly when
    the button line was read at a level other than 1 after reading 1
    until then: it has no bound of its own on the reads.  What it returns
    is always a boolean, and once it has returned within some number of
    reads it returns the same with any larger allowance. *)
Theorem wait_for_button_press_sees_the_press :
  forall (fuel : nat) (s : state W Globals) (h : Z),
  gpio_handle (globals s) = Some h ->
  (fst (wait_for_button_press fuel s) = Ret (PyBool true)
   <-> pressed_within h fuel (world s)) /\
  (forall v, fst (wait_for_button_press fuel s) = Ret v ->
     v = PyBool true \/ v = PyBool false) /\
  (forall more, (fuel <= more)%nat ->
     fst (wait_for_button_press fuel s) <> OutOfFuel ->
     wait_for_button_press more s = wait_for_button_press fuel s).
Proof.
  intros fuel s h G.
  split.
  { rewrite <- (poll_button_Ret_iff h fuel
                  (mkState (world s)
                     (EPrint "[INFO] Waiting for button press..." :: trace s)
                     (globals s))).
    unfold wait_for_button_press, bind at 1, read_globals. rewrite G.
    unfold bind at 1, print at 1. unfold try_except, bind at 1.
    destruct (poll_button fuel h _) as [[[]|e|] s1]; cbn;
      split; intro E; try discriminate; reflexivity. }
  split.
  { intros v E.
    destruct (wait_for_button_press fuel s) as [r s'] eqn:R.
    cbn [fst] in E. subst r. unfold wait_for_button_press in R. unbind.
    destruct (gpio_handle a).
    - unbind. apply try_except_Ret_inv in R.
      destruct R as [R|(e & ? & _ & R)]; unbind; unfold ret in R;
        inversion R; auto.
    - unbind. unfold ret in R. inversion R. auto. }
  intros more L N. now apply wait_for_button_press_steady.
Qed.

(** ** The buzzer *)

(** X7.  [beep] with a handle whose writes succeed drives the buzzer line
    high, sleeps for the duration and drives it low.  With a negative
    duration the sleep is refused after the line has been driven high:
    the error is printed, [None] is returned, and the line is never
    driven low. *)
Theorem beep_pulse :
  forall (duration : Q) (s : state W Globals) (h : Z) (w1 : W),
  gpio_handle (globals s) = Some h ->
  gpio_write h BUZZER 1 (world s) = (Fine tt, w1) ->
  ((duration < 0)%Q ->
   beep duration s =
     (Ret PyNone,
      mkState w1
        (EPrint "[WARN] Buzzer failed: sleep length must be non-negative"
           :: ECall "lgpio.gpio_write" [PyInt h; PyInt BUZZER; PyInt 1]
           :: trace s)
        (globals s))) /\
  (forall w3,
   (0 <= duration)%Q ->
   gpio_write h BUZZER 0 (snd (time_sleep duration w1)) = (Fine tt, w3) ->
   beep duration s =
     (Ret PyNone,
      mkState w3
        (ECall "lgpio.gpio_write" [PyInt h; PyInt BUZZER; PyInt 0]
           :: ECall "time.sleep" [PyFloat duration]
           :: ECall "lgpio.gpio_write" [PyInt h; PyInt BUZZER; PyInt 1]
           :: trace s)
        (globals s))).
Proof.
  intros duration s h w1 G W1. split.
  - intro Neg. apply Qltb_iff in Neg.
    unfold beep, bind at 1, read_globals. rewrite G.
    unfold try_except, bind at 1, call at 1. rewrite W1.
    unfold bind at 1, sleep. rewrite Neg. reflexivity.
  - intros w3 Pos W0.
    assert (Qltb duration 0 = false) as NN.
    { destruct (Qltb duration 0) eqn:E; [|reflexivity].
      apply Qltb_iff in E. exfalso. exact (Qlt_not_le _ _ E Pos). }
    unfold beep, bind at 1, read_globals. rewrite G.
    unfold try_except, bind at 1, call at 1. rewrite W1.
    unfold bind at 1, sleep. rewrite NN.
    unfold call at 1, total. cbn [world trace globals].
    destruct (time_sleep duration w1) as [[] w2]. cbn [snd] in W0.
    unfold bind at 1, call at 1. cbn [world trace globals].
    rewrite W0. reflexivity.
Qed.

(** ** Using the adapters after cleanup *)

(** X8.  After a [cleanup_gpio] that closed the handle, the distance, button
    and buzzer functions answer with their defaults and make no call into
    the hardware. *)
Theorem after_cleanup_adapters_stay_off :
  forall (s : state W Globals) (h : Z) (w' : W) (fuel : nat) (duration : Q),
  gpio_handle (globals s) = Some h ->
  gpiochip_close h (world s) = (Fine tt, w') ->
  let closed := snd (cleanup_gpio s) in
  (fst (measure_distance fuel closed) = Ret PyNone /\
   world (snd (measure_distance fuel closed)) = w') /\
  (fst (wait_for_button_press fuel closed) = Ret (PyBool false) /\
   world (snd (wait_for_button_press fuel closed)) = w') /\
  (fst (beep duration closed) = Ret PyNone /\
   world (snd (beep duration closed)) = w').
Proof.
  intros s h w' fuel duration G C closed. subst closed.
  rewrite (ChatgptFacts.cleanup_gpio_closes s G C). cbn [snd].
  rewrite ChatgptFacts.measure_distance_no_handle,
    ChatgptFacts.wait_for_button_press_no_handle,
    ChatgptFacts.beep_no_handle by reflexivity.
  repeat split.
Qed.


(** ** The distance handed back *)

(** X9.  A number that [measure_distance] hands back lies between 2 and 400,
    both included: the raw distance is strictly inside, and rounding to 2
    digits can bring it onto a bound but not past it. *)
Theorem measure_distance_within_bounds :
  forall (fuel : nat) (s : state W Globals) (v : pyval),
  fst (measure_distance fuel s) = Ret v ->
  v = PyNone \/ exists q, v = PyFloat q /\ (2 <= q)%Q /\ (q <= 400)%Q.
Proof.
  intros fuel s v E.
  destruct (measure_distance fuel s) as [r s'] eqn:R.
  cbn [fst] in E. subst r.
  destruct (ChatgptFacts.measure_distance_value fuel s R)
    as [->|(d & -> & L & U)]; [now left|].
  right. exists (round d 2). split; [reflexivity|].
  apply Rounding.round2_between; now apply Qlt_le_weak.
Qed.

(** ** The display *)

Definition is_draw_text (e : event) : bool :=
  match e with
  | ECall fn _ => String.eqb fn "draw.text"
  | EPrint _ => false
  end.

Lemma draw_lines_adds (lines : list string) : forall i,
  adds_at_most is_draw_text (List.length lines) (draw_lines i lines).
Proof.
  induction lines as [|text rest IH]; intro i; cbn [draw_lines List.length].
  - apply adds_ret.
  - change (S (List.length rest)) with (1 + List.length rest)%nat.
    apply adds_bind; [apply adds_call|]. intros _. apply IH.
Qed.

(** X10.  [oled_display_message] draws at most four lines, whatever the list
    it is given and whatever the display answers. *)
Theorem oled_display_message_draws_four :
  forall (disp : option obj) (lines : list string) (s : state W Globals),
  (count is_draw_text (trace (snd (oled_display_message disp lines s)))
   <= count is_draw_text (trace s) + 4)%nat.
Proof.
  intros disp lines. change (adds_at_most is_draw_text 4
                               (oled_display_message disp lines)).
  unfold oled_display_message. destruct disp as [d|].
  - apply adds_weaken
      with (n := ((0 + (0 + (0 + (0 + (0 + (List.length (firstn 4 lines)
                                         + (0 + (0 + 0)))))))) + (0 + 0))%nat).
    + apply adds_try_except.
      * repeat first
          [ apply adds_bind; [|intro]
          | apply adds_call_other; reflexivity
          | apply draw_lines_adds
          | apply adds_ret ].
      * intro e. apply adds_bind; [now apply adds_print|].
        intros _. apply adds_ret.
    + pose proof (firstn_le_length 4 lines). lia.
  - apply adds_weaken with (n := 0%nat); [apply adds_ret|lia].
Qed.


(** ** The colour read *)

(** X11.  What [read_color] hands back is [None], or a dictionary with the six
    keys r, g, b, clear, color_temp and lux, in that order. *)
Theorem read_color_value :
  forall (s : state W Globals) (v : pyval),
  fst (read_color s) = Ret v ->
  v = PyNone \/
  exists r g b c color_temp lx,
    v = PyDict [("r", PyInt r); ("g", PyInt g); ("b", PyInt b);
                ("clear", PyInt c); ("color_temp", opt_float color_temp);
                ("lux", opt_float lx)].
Proof.
  intros s v E.
  destruct (read_color s) as [r0 s'] eqn:R. cbn [fst] in E. subst r0.
  unfold read_color in R. apply try_except_Ret_inv in R.
  destruct R as [R|(e & ? & _ & R)].
  - unbind. destruct a2 as [[[r g] b] c]. unbind.
    unfold ret in R. inversion R. right. do 6 eexists. reflexivity.
  - unbind. unfold ret in R. inversion R. now left.
Qed.


End Effects.
End ChatgptMore.

(* ================================================================== *)
(** * Beyond the claims: [hw_layer.py] *)
(* ================================================================== *)

Module HwLayerMore.
Import Py PyFacts Frame HwLayer.
Local Open Scope string_scope.

Definition is_text_call (e : event) : bool :=
  match e with
  | ECall fn _ => String.eqb fn "draw.text"
  | EPrint _ => false
  end.

(** The seven labels [get_color_name] can give. *)
Definition color_names : list string :=
  ["White"; "Black"; "Red"; "Green"; "Blue"; "Yellow"; "Unknown"].

Lemma get_color_name_is_a_color (rgb : Z * Z * Z) :
  In (get_color_name rgb) color_names.
Proof.
  destruct rgb as [[r g] b]. unfold get_color_name, color_names.
  repeat match goal with
         | |- context [if ?c then _ else _] => destruct c
         end; cbn; tauto.
Qed.

(** The three answers of [analyze_absorption], in order. *)
Definition absorption_rank (label : string) : nat :=
  if String.eqb label "High" then 2
  else if String.eqb label "Medium" then 1
  else 0.

(** X21.  [analyze_absorption] is monotone: a larger deviation never gets a
    lower class; and two rationals that are equal as numbers get the same
    class. *)
Theorem analyze_absorption_monotone :
  forall s1 s2 : Q,
  ((s1 <= s2)%Q ->
   (absorption_rank (analyze_absorption s1)
    <= absorption_rank (analyze_absorption s2))%nat) /\
  ((s1 == s2)%Q -> analyze_absorption s1 = analyze_absorption s2).
Proof.
  intros s1 s2. unfold analyze_absorption.
  destruct (Qgtb_spec s1 (12 # 10)); destruct (Qgtb_spec s1 (5 # 10));
    destruct (Qgtb_spec s2 (12 # 10)); destruct (Qgtb_spec s2 (5 # 10));
    split; intro L; cbn; first [lia | reflexivity | exfalso; lra].
Qed.

Section Effects.
Context {W : Type} `{Drivers W} `{Numerics}.

Lemma read_samples_keeps_globals : forall n, keeps_globals (read_samples n).
Proof. induction n as [|n IH]; cbn [read_samples]; frame. apply IH. Qed.

(** X12.  No function of the module assigns a global: the peripheral objects
    found when the module was imported stay what they are, whatever the
    reads, the buzzer and the display do and however they end. *)
Theorem functions_keep_the_peripherals :
  forall (s : state W Globals) (samples : Z) (duration : Q)
         (distance shape material : string),
  globals (snd (read_temperature s)) = globals s /\
  globals (snd (read_color s)) = globals s /\
  globals (snd (buzzer_beep duration s)) = globals s /\
  globals (snd (read_button s)) = globals s /\
  globals (snd (measure_distance samples s)) = globals s /\
  globals (snd (update_physical_oled distance shape material s)) = globals s.
Proof.
  intros s samples duration distance shape material.
  repeat split.
  - revert s. change (keeps_globals read_temperature).
    unfold read_temperature. frame.
  - revert s. change (keeps_globals read_color). unfold read_color. frame.
  - revert s. change (keeps_globals (buzzer_beep duration)).
    unfold buzzer_beep. frame.
  - revert s. change (keeps_globals read_button). unfold read_button. frame.
  - revert s. change (keeps_globals (measure_distance samples)).
    unfold measure_distance. frame; apply read_samples_keeps_globals.
  - revert s.
    change (keeps_globals (update_physical_oled distance shape material)).
    unfold update_physical_oled. frame.
Qed.

(** X13.  [read_color] always hands back a dictionary holding one label, and
    the label tells what happened: "N/A" exactly when there is no sensor
    object, "Error" exactly when there is one and reading it raised, and
    otherwise the name [get_color_name] gives the bytes read, which is
    never one of those two. *)
Theorem read_color_label :
  forall s : state W Globals,
  exists label,
    fst (read_color s) = Ret (PyDict [("color_name", PyStr label)]) /\
    (label = "N/A" <-> tcs_sensor (globals s) = None) /\
    (label = "Error" <->
       tcs_sensor (globals s) <> None /\
       exists e, fst (color_rgb_bytes (world s)) = Fails e) /\
    (In label color_names <->
       tcs_sensor (globals s) <> None /\
       exists rgb, fst (color_rgb_bytes (world s)) = Fine rgb
                   /\ label = get_color_name rgb).
Proof.
  intro s. unfold read_color, bind at 1, read_globals.
  destruct (tcs_sensor (globals s)) as [o|] eqn:T.
  - unfold try_except, bind, call.
    destruct (color_rgb_bytes (world s)) as [[rgb|e] w'] eqn:C; cbn [fst].
    + exists (get_color_name rgb). split; [reflexivity|].
      pose proof (get_color_name_is_a_color rgb) as I.
      split; [|split].
      * split; [|discriminate]. intro E. rewrite E in I. cbn in I.
        repeat destruct I as [I|I]; try discriminate; contradiction.
      * split.
        -- intro E. rewrite E in I. cbn in I.
           repeat destruct I as [I|I]; try discriminate; contradiction.
        -- intros [_ [e X]]. discriminate.
      * split; [|intros _; exact I].
        intros _. split; [discriminate|]. exists rgb. now split.
    + exists "Error". split; [reflexivity|].
      split; [|split].
      * split; discriminate.
      * split; [|reflexivity]. intros _. split; [discriminate|]. now exists e.
      * split.
        -- cbn. intro I.
           repeat destruct I as [I|I]; try discriminate; contradiction.
        -- intros [_ [rgb [X _]]]. discriminate.
  - exists "N/A". split; [reflexivity|].
    split; [|split].
    + split; reflexivity.
    + split; [discriminate|]. intros [X _]. now contradiction X.
    + split.
      * cbn. intro I.
        repeat destruct I as [I|I]; try discriminate; contradiction.
      * intros [X _]. now contradiction X.
Qed.

(** X14.  [read_button] answers [True] in two cases it does not tell apart:
    there is no button object, or there is one and it is not pressed. *)
Theorem read_button_true_is_ambiguous :
  forall (s : state W Globals) (b : bool),
  fst (read_button s) = Ret (PyBool b) ->
  (b = true <->
   button_obj (globals s) = None \/
   (button_obj (globals s) <> None /\
    fst (is_pressed (world s)) = Fine false)).
Proof.
  intros s b. unfold read_button, bind at 1, read_globals.
  destruct (button_obj (globals s)) as [o|] eqn:B.
  - unfold bind, call.
    destruct (is_pressed (world s)) as [[p|e] w'] eqn:P; cbn [fst];
      [|discriminate].
    unfold ret. cbn [fst]. intro E. inversion E; subst.
    split.
    + intro N. right. split; [discriminate|]. destruct p; [discriminate|].
      reflexivity.
    + intros [X|[_ X]]; [discriminate|]. inversion X. reflexivity.
  - unfold ret. cbn [fst]. intro E. inversion E; subst.
    split; [intros _; now left|reflexivity].
Qed.

(** X15.  Unlike the colour read and the display, four functions let driver
    exceptions through.  [read_temperature] catches [OSError] only: any
    other exception raised by the frame read leaves it.  [buzzer_beep],
    [read_button] and [measure_distance] catch nothing: an exception
    raised by the buzzer, by the button or by the first distance read
    leaves them. *)
Theorem driver_exceptions_escape :
  forall (s : state W Globals) (e : exn),
  (mlx_sensor (globals s) <> None ->
   fst (getFrame (world s)) = Fails e -> is_OSError e = false ->
   fst (read_temperature s) = Raise e) /\
  (forall duration,
   buzzer_obj (globals s) <> None ->
   fst (beep duration 1 (world s)) = Fails e ->
   fst (buzzer_beep duration s) = Raise e) /\
  (button_obj (globals s) <> None ->
   fst (is_pressed (world s)) = Fails e ->
   fst (read_button s) = Raise e) /\
  (forall samples,
   distance_sensor_obj (globals s) <> None ->
   (0 < samples)%Z ->
   fst (distance (world s)) = Fails e ->
   fst (measure_distance samples s) = Raise e).
Proof.
  intros s e. repeat split.
  - intros M F O. unfold read_temperature, bind at 1, read_globals.
    destruct (mlx_sensor (globals s)); [|congruence].
    unfold try_except_OSError, bind, call.
    destruct (getFrame (world s)) as [r w']. cbn [fst] in F. subst r.
    cbn. now rewrite O.
  - intros duration B F. unfold buzzer_beep, bind at 1, read_globals.
    destruct (buzzer_obj (globals s)); [|congruence].
    unfold bind, call.
    destruct (beep duration 1 (world s)) as [r w']. cbn [fst] in F. now subst r.
  - intros B F. unfold read_button, bind at 1, read_globals.
    destruct (button_obj (globals s)); [|congruence].
    unfold bind, call.
    destruct (is_pressed (world s)) as [r w']. cbn [fst] in F. now subst r.
  - intros samples D P F. unfold measure_distance, bind at 1, read_globals.
    destruct (distance_sensor_obj (globals s)); [|congruence].
    destruct (Z.to_nat samples) as [|n] eqn:N; [lia|].
    cbn [read_samples]. unfold bind, call.
    destruct (distance (world s)) as [r w']. cbn [fst] in F. now subst r.
Qed.

(** X16.  When at least one reading passes the filter, the average handed back
    lies between 2 and 400, both included; in particular it is not 0, so
    a first component of 0 means that no reading passed. *)
Theorem measure_distance_average_within_bounds :
  forall (samples : Z) (s s' : state W Globals) (readings : list Q),
  distance_sensor_obj (globals s) <> None ->
  read_samples (Z.to_nat samples) s = (Ret readings, s') ->
  filter in_envelope readings <> [] ->
  exists avg dev,
    fst (measure_distance samples s) = Ret (PyTuple [PyFloat avg; dev]) /\
    (2 <= avg)%Q /\ (avg <= 400)%Q /\ ~ (avg == 0)%Q.
Proof.
  intros samples s s' readings D R N.
  rewrite (@HwLayerFacts.measure_distance_present _ _ _ samples s s' readings
             D R).
  set (valid := filter in_envelope readings) in *.
  assert (B : (2 <= mean valid)%Q /\ (mean valid <= 400)%Q).
  { apply Rounding.mean_between; [exact N|].
    intros r I. unfold valid in I. apply filter_In in I.
    destruct I as [_ I]. apply HwLayerFacts.in_envelope_iff in I.
    split; apply Qlt_le_weak; tauto. }
  destruct (Rounding.round2_between (proj1 B) (proj2 B)) as [L U].
  exists (round (mean valid) 2).
  unfold HwLayerFacts.summary. cbn [fst].
  destruct valid as [|x [|y l]]; [congruence| |];
    eexists; (split; [reflexivity|]); repeat split; try assumption;
    intro Z; rewrite Z in L; revert L; unfold Qle; cbn; lia.
Qed.

(** X18.  [update_physical_oled] always returns [None], whatever the display
    does, and writes at most three lines of text to it. *)
Theorem update_physical_oled_never_raises :
  forall (distance shape material : string) (s : state W Globals),
  fst (update_physical_oled distance shape material s) = Ret PyNone /\
  (count is_text_call
     (trace (snd (update_physical_oled distance shape material s)))
   <= count is_text_call (trace s) + 3)%nat.
Proof.
  intros distance shape material s. split.
  - unfold update_physical_oled, bind at 1, read_globals.
    destruct (oled_device (globals s)); [|reflexivity].
    unfold try_except.
    match goal with |- context [match ?c s with _ => _ end] =>
      destruct (c s) as [[v|e|] s1] eqn:E end.
    + unbind. unfold ret in E. now inversion E.
    + reflexivity.
    + exfalso.
      assert (Hh : forall A (c : M (state W Globals) A),
                 halts c -> forall s0 s2, c s0 <> (OutOfFuel, s2)).
      { intros A c Hc s0 s2 X. apply (Hc s0). now rewrite X. }
      eapply Hh; [|exact E].
      repeat first [apply halts_bind; [|intro] | apply halts_call
                   | apply returns_halts; apply returns_ret].
  - revert s.
    change (adds_at_most is_text_call 3
              (update_physical_oled distance shape material)).
    unfold update_physical_oled.
    apply adds_weaken with (n := (0 + (3 + 0))%nat); [|lia].
    apply adds_bind; [apply adds_read_globals|]. intro g.
    destruct (oled_device g).
    + apply adds_try_except
        with (n := (0 + (1 + (1 + (1 + (0 + 0)))))%nat) (m := 0%nat).
      * repeat first
          [ apply adds_bind; [|intro]
          | apply adds_call_other; reflexivity
          | apply adds_call
          | apply adds_ret ].
      * intro e. change 0%nat with (0 + 0)%nat.
        apply adds_bind; [now apply adds_print|]. intros _. apply adds_ret.
    + apply adds_weaken with (n := (0 + 0)%nat); [|lia].
      apply adds_bind; [now apply adds_print|]. intros _. apply adds_ret.
Qed.

(** ** How often the sensor is read *)

Definition is_distance_read (e : event) : bool :=
  match e with
  | ECall fn _ => String.eqb fn "distance_sensor_obj.distance"
  | EPrint _ => false
  end.

Lemma read_samples_reads (n : nat) : forall (s s' : state W Globals) r,
  read_samples n s = (r, s') ->
  (count is_distance_read (trace s')
   <= count is_distance_read (trace s) + n)%nat /\
  ((exists l, r = Ret l) ->
   count is_distance_read (trace s')
   = (count is_distance_read (trace s) + n)%nat).
Proof.
  induction n as [|n IH]; intros s s' r E; cbn [read_samples] in E.
  - unfold ret in E. inversion E; subst. split; [lia|intros _; lia].
  - unfold bind at 1, call at 1 in E.
    destruct (distance (world s)) as [[d|e] w1].
    + unfold bind at 1 in E.
      match type of E with
      | context [read_samples n ?s1] =>
          destruct (read_samples n s1) as [r1 s2] eqn:E2;
          apply IH in E2
      end.
      destruct E2 as [Le Eq]. unfold count in *. cbn in Le, Eq.
      destruct r1 as [rest| |]; unfold ret in E; inversion E; subst;
        (split; [lia|]); intros [l X]; try discriminate.
      rewrite Eq by eauto. lia.
    + inversion E; subst. unfold count. cbn.
      split; [lia|]. intros [l X]. discriminate.
Qed.

(** X17.  [measure_distance] reads the sensor at most [samples] times, and
    exactly [samples] times whenever it hands back a result with a sensor
    object in place; with none it does not read at all. *)
Theorem measure_distance_reads_the_sensor :
  forall (samples : Z) (s : state W Globals),
  let after := trace (snd (measure_distance samples s)) in
  (count is_distance_read after
   <= count is_distance_read (trace s) + Z.to_nat samples)%nat /\
  (distance_sensor_obj (globals s) <> None ->
   (exists v, fst (measure_distance samples s) = Ret v) ->
   count is_distance_read after
   = (count is_distance_read (trace s) + Z.to_nat samples)%nat) /\
  (distance_sensor_obj (globals s) = None ->
   count is_distance_read after = count is_distance_read (trace s)).
Proof.
  intros samples s after. subst after.
  unfold measure_distance, bind, read_globals.
  destruct (distance_sensor_obj (globals s)) as [o|] eqn:D.
  - destruct (read_samples (Z.to_nat samples) s) as [r s'] eqn:R.
    destruct (read_samples_reads _ _ R) as [Le Eq].
    destruct r as [readings|e|].
    + destruct (filter in_envelope readings); cbn [snd fst];
        (split; [exact Le|]); (split; [|discriminate]);
        intros _ _; apply Eq; eauto.
    + cbn [snd fst]. split; [exact Le|]. split; [|discriminate].
      intros _ [v X]. discriminate.
    + cbn [snd fst]. split; [exact Le|]. split; [|discriminate].
      intros _ [v X]. discriminate.
  - cbn. unfold count. cbn. split; [lia|]. split; [congruence|reflexivity].
Qed.

(** ** Importing the module *)

Ltac rig_calls :=
  repeat (cbn [world trace globals fst snd pin_factory i2c_bus mlx_sensor
               tcs_sensor oled_device distance_sensor_obj buzzer_obj
               button_obj];
          match goal with
          | |- context [pin_factory_close ?w] => case_call (pin_factory_close w)
          | |- context [busio_I2C ?w] => case_call (busio_I2C w)
          | |- context [MLX90640 ?w] => case_call (MLX90640 w)
          | |- context [TCS34725 ?w] => case_call (TCS34725 w)
          | |- context [luma_i2c ?a ?b ?w] => case_call (luma_i2c a b w)
          | |- context [ssd1306 ?w] => case_call (ssd1306 w)
          | |- context [DistanceSensor ?a ?b ?w] =>
              case_call (DistanceSensor a b w)
          | |- context [Buzzer ?a ?w] => case_call (Buzzer a w)
          | |- context [Button ?a ?b ?w] => case_call (Button a b w)
          | |- context [match ?x with Some _ => _ | None => _ end] =>
              let E := fresh "E" in destruct x eqn:E
          end).

Ltac open_module_init :=
  unfold module_init, cleanup_gpio_pins, init_i2c_bus, init_i2c_sensors,
    init_oled_device, init_gpio_devices, try_except, bind, read_globals,
    write_globals, call, print, ret;
  hide_strings.

(** X19.  When the import goes through, the three GPIO objects are there
    together or absent together, and so are the I2C bus and its two
    sensors: the module never holds a buzzer without a button, or a
    sensor without its bus. *)
Theorem module_init_all_or_nothing :
  forall s : state W Globals,
  fst (module_init s) = Ret tt ->
  let g := globals (snd (module_init s)) in
  ((distance_sensor_obj g <> None /\ buzzer_obj g <> None
    /\ button_obj g <> None) \/
   (distance_sensor_obj g = None /\ buzzer_obj g = None
    /\ button_obj g = None)) /\
  ((i2c_bus g <> None /\ mlx_sensor g <> None /\ tcs_sensor g <> None) \/
   (i2c_bus g = None /\ mlx_sensor g = None /\ tcs_sensor g = None)).
Proof.
  intro s. open_module_init. rig_calls; cbn [fst]; intro R;
    try discriminate; cbv zeta; cbn [snd globals distance_sensor_obj
      buzzer_obj button_obj i2c_bus mlx_sensor tcs_sensor];
    (split;
     first [ left; repeat split; discriminate
           | right; repeat split; reflexivity ]).
Qed.

(** X20.  The import can be aborted by one thing only: the I2C bus having
    opened, the constructor of the thermal sensor or of the colour sensor
    raises.  A bus, a display or a GPIO device that fails is caught. *)
Theorem module_init_aborts_only_in_a_sensor_constructor :
  forall (s : state W Globals) (e : exn),
  fst (module_init s) = Raise e ->
  exists rest,
    trace (snd (module_init s)) =
      ECall "adafruit_circuitpython_mlx90640.MLX90640" []
        :: ECall "busio.I2C" [] :: rest \/
    trace (snd (module_init s)) =
      ECall "adafruit_tcs34725.TCS34725" []
        :: ECall "adafruit_circuitpython_mlx90640.MLX90640" []
        :: ECall "busio.I2C" [] :: rest.
Proof.
  intros s e. open_module_init. rig_calls; cbn [fst]; intro R;
    try discriminate; cbn [snd trace];
    eexists; first [left; reflexivity | right; reflexivity].
Qed.


End Effects.
End HwLayerMore.

(* ================================================================== *)
(** * Beyond the claims: runs on the simulated worlds *)
(* ================================================================== *)

(** Two worlds where the devices fail.  The rig's state says whether its
    I2C bus opens; every other call into its drivers raises.  The chip
    refuses every call. *)
Module Faulty.
Import Py.
Local Open Scope string_scope.

Definition fault : exn := mkExn OtherException "device fault".

Definition refuse {A W} (w : W) : reply A * W := (Fails fault, w).

#[global] Instance rig_drivers : HwLayer.Drivers bool := {|
  HwLayer.pin_factory_close := refuse;
  HwLayer.busio_I2C :=
    fun w : bool => if w then (Fine tt, w) else (Fails fault, w);
  HwLayer.MLX90640 := refuse;
  HwLayer.TCS34725 := refuse;
  HwLayer.luma_i2c := fun _ _ => refuse;
  HwLayer.ssd1306 := refuse;
  HwLayer.DistanceSensor := fun _ _ => refuse;
  HwLayer.Buzzer := fun _ => refuse;
  HwLayer.Button := fun _ _ => refuse;
  HwLayer.distance := refuse;
  HwLayer.getFrame := refuse;
  HwLayer.temperature_ambient := refuse;
  HwLayer.color_rgb_bytes := refuse;
  HwLayer.beep := fun _ _ => refuse;
  HwLayer.is_pressed := refuse;
  HwLayer.canvas := refuse;
  HwLayer.draw_text := fun _ _ _ => refuse;
  HwLayer.canvas_display := refuse
|}.

#[global] Instance chip_drivers : HwLayerChatgpt.Drivers unit := {|
  HwLayerChatgpt.gpiochip_open := fun _ => refuse;
  HwLayerChatgpt.gpiochip_close := fun _ => refuse;
  HwLayerChatgpt.gpio_claim_output := fun _ _ => refuse;
  HwLayerChatgpt.gpio_claim_input := fun _ _ => refuse;
  HwLayerChatgpt.gpio_write := fun _ _ _ => refuse;
  HwLayerChatgpt.gpio_read := fun _ _ => refuse;
  HwLayerChatgpt.time_time := fun w => (0%Q, w);
  HwLayerChatgpt.time_sleep := fun _ w => (tt, w);
  HwLayerChatgpt.SMBus := fun _ => refuse;
  HwLayerChatgpt.SMBus_close := refuse;
  HwLayerChatgpt.MLX90614 := fun _ => refuse;
  HwLayerChatgpt.get_ambient := refuse;
  HwLayerChatgpt.get_object_1 := refuse;
  HwLayerChatgpt.busio_I2C := refuse;
  HwLayerChatgpt.TCS34725 := refuse;
  HwLayerChatgpt.color_raw := refuse;
  HwLayerChatgpt.color_temperature := refuse;
  HwLayerChatgpt.lux := refuse;
  HwLayerChatgpt.SSD1306_128_64 := refuse;
  HwLayerChatgpt.disp_begin := refuse;
  HwLayerChatgpt.disp_clear := refuse;
  HwLayerChatgpt.disp_display := refuse;
  HwLayerChatgpt.Image_new := fun _ _ => refuse;
  HwLayerChatgpt.ImageDraw_Draw := refuse;
  HwLayerChatgpt.ImageFont_load_default := refuse;
  HwLayerChatgpt.draw_text := fun _ _ _ => refuse;
  HwLayerChatgpt.disp_image := refuse
|}.

(** The faulty rig with every object of the module in place. *)
Definition rig (bus : bool) : state bool HwLayer.Globals :=
  mkState bus [] FakeRig.all_globals.

(** The faulty rig before the module is imported. *)
Definition rig_before_import (bus : bool) : state bool HwLayer.Globals :=
  mkState bus [] FakeRig.no_globals.

(** The refusing chip, the module holding handle 7 from earlier. *)
Definition chip : state unit HwLayerChatgpt.Globals :=
  mkState tt []
    (HwLayerChatgpt.set_gpio_handle (Some 7%Z) FakeChip.fresh_globals).

End Faulty.

Module MoreRuns.
Import Py PyFacts Frame Runs.
Local Open Scope string_scope.

(** The chip after [init_gpio]; the button line reads 1 twice, then 0. *)
Definition chip_button : HwLayerChatgpt.State :=
  chip_after_init (FakeChip.mkChip 0 [] 0 [] [] 0 [1; 1; 0]%Z 0 0 true).

(** Everything attached, the button not pressed. *)
Definition rig_idle : HwLayer.State :=
  FakeRig.start FakeRig.all_globals FakeRig.bench.

(** The chip that refuses every open leaves no handle, even over one
    held before. *)
Lemma init_gpio_permanent_failure_witness :
  (forall w : unit,
     exists e w', HwLayerChatgpt.gpiochip_open 0 w = (Fails e, w')) /\
  HwLayerChatgpt.gpio_handle (globals Faulty.chip) = Some 7%Z /\
  HwLayerChatgpt.gpio_handle
    (globals (snd (HwLayerChatgpt.init_gpio Faulty.chip))) = None.
Proof.
  assert (F : forall w : unit,
            exists e w', HwLayerChatgpt.gpiochip_open 0 w = (Fails e, w')).
  { intro w. exists Faulty.fault, w. reflexivity. }
  split; [exact F|]. split; [reflexivity|].
  exact (@ChatgptMore.init_gpio_permanent_failure unit _ F Faulty.chip).
Defined.

(** The press is seen at the third read. *)
Lemma wait_for_button_press_witness :
  HwLayerChatgpt.gpio_handle (globals chip_button) = Some 0%Z /\
  fst (HwLayerChatgpt.wait_for_button_press 5 chip_button)
    = Ret (PyBool true) /\
  ChatgptMore.pressed_within 0 5 (world chip_button).
Proof.
  assert (G : HwLayerChatgpt.gpio_handle (globals chip_button) = Some 0%Z)
    by (vm_compute; reflexivity).
  assert (R : fst (HwLayerChatgpt.wait_for_button_press 5 chip_button)
              = Ret (PyBool true)) by (vm_compute; reflexivity).
  split; [exact G|]. split; [exact R|].
  exact (proj1 (proj1 (@ChatgptMore.wait_for_button_press_sees_the_press
                         _ _ 5 chip_button 0%Z G)) R).
Defined.

(** A beep of minus one second on the chip: the buzzer is driven high and
    stays high. *)
Lemma beep_pulse_witness :
  HwLayerChatgpt.gpio_handle (globals chip_button) = Some 0%Z /\
  HwLayerChatgpt.gpio_write 0 HwLayerChatgpt.BUZZER 1 (world chip_button)
    = (Fine tt, world chip_button) /\
  (-1 < 0)%Q /\
  HwLayerChatgpt.beep (-1) chip_button =
    (Ret PyNone,
     mkState (world chip_button)
       (EPrint "[WARN] Buzzer failed: sleep length must be non-negative"
          :: ECall "lgpio.gpio_write"
               [PyInt 0; PyInt HwLayerChatgpt.BUZZER; PyInt 1]
          :: trace chip_button)
       (globals chip_button)).
Proof.
  assert (G : HwLayerChatgpt.gpio_handle (globals chip_button) = Some 0%Z)
    by (vm_compute; reflexivity).
  assert (W1 : HwLayerChatgpt.gpio_write 0 HwLayerChatgpt.BUZZER 1
                 (world chip_button) = (Fine tt, world chip_button))
    by (vm_compute; reflexivity).
  assert (N : (-1 < 0)%Q) by reflexivity.
  split; [exact G|]. split; [exact W1|]. split; [exact N|].
  exact (proj1 (@ChatgptMore.beep_pulse _ _ (-1) chip_button 0%Z _ G W1) N).
Defined.

(** Cleanup on the chip, then the three adapters. *)
Lemma after_cleanup_witness :
  HwLayerChatgpt.gpio_handle (globals chip_button) = Some 0%Z /\
  HwLayerChatgpt.gpiochip_close 0 (world chip_button)
    = (Fine tt, snd (FakeChip.close 0 (world chip_button))) /\
  fst (HwLayerChatgpt.measure_distance 3
         (snd (HwLayerChatgpt.cleanup_gpio chip_button))) = Ret PyNone /\
  fst (HwLayerChatgpt.beep (1 # 10)
         (snd (HwLayerChatgpt.cleanup_gpio chip_button))) = Ret PyNone.
Proof.
  assert (G : HwLayerChatgpt.gpio_handle (globals chip_button) = Some 0%Z)
    by (vm_compute; reflexivity).
  assert (C : HwLayerChatgpt.gpiochip_close 0 (world chip_button)
              = (Fine tt, snd (FakeChip.close 0 (world chip_button))))
    by (vm_compute; reflexivity).
  pose proof (@ChatgptMore.after_cleanup_adapters_stay_off
                _ _ chip_button 0%Z _ 3 (1 # 10) G C) as T.
  cbv zeta in T. destruct T as ((T1 & _) & _ & (T3 & _)).
  split; [exact G|]. split; [exact C|]. split; [exact T1|exact T3].
Defined.

(** The distance of the echo run, 5.14 cm, lies within the bounds. *)
Lemma measure_distance_within_bounds_witness :
  fst (HwLayerChatgpt.measure_distance 10 chip_echo)
    = Ret (PyFloat (514 # 100)) /\
  (PyFloat (514 # 100) = PyNone \/
   exists q, PyFloat (514 # 100) = PyFloat q /\ (2 <= q)%Q /\ (q <= 400)%Q).
Proof.
  assert (R : fst (HwLayerChatgpt.measure_distance 10 chip_echo)
              = Ret (PyFloat (514 # 100))) by (vm_compute; reflexivity).
  split; [exact R|].
  exact (@ChatgptMore.measure_distance_within_bounds _ _ 10 chip_echo _ R).
Defined.

(** On the rig the button is there and not pressed: the answer is
    [True], as it would be with no button. *)
Lemma read_button_true_witness :
  fst (HwLayer.read_button rig_idle) = Ret (PyBool true) /\
  (true = true <->
   HwLayer.button_obj (globals rig_idle) = None \/
   (HwLayer.button_obj (globals rig_idle) <> None /\
    fst (HwLayer.is_pressed (world rig_idle)) = Fine false)).
Proof.
  assert (R : fst (HwLayer.read_button rig_idle) = Ret (PyBool true))
    by reflexivity.
  split; [exact R|].
  exact (@HwLayerMore.read_button_true_is_ambiguous _ _ rig_idle true R).
Defined.

(** On the faulty rig, each of the four functions raises the fault. *)
Lemma driver_exceptions_escape_witness :
  HwLayer.mlx_sensor (globals (Faulty.rig true)) <> None /\
  fst (HwLayer.getFrame (world (Faulty.rig true))) = Fails Faulty.fault /\
  is_OSError Faulty.fault = false /\
  fst (HwLayer.read_temperature (Faulty.rig true)) = Raise Faulty.fault /\
  fst (HwLayer.buzzer_beep (1 # 10) (Faulty.rig true)) = Raise Faulty.fault /\
  fst (HwLayer.read_button (Faulty.rig true)) = Raise Faulty.fault /\
  (0 < 10)%Z /\
  fst (HwLayer.measure_distance 10 (Faulty.rig true)) = Raise Faulty.fault.
Proof.
  assert (P : forall o : option HwLayer.obj, o = Some tt -> o <> None)
    by (intros o ->; discriminate).
  pose proof (@HwLayerMore.driver_exceptions_escape _ _ _
                (Faulty.rig true) Faulty.fault) as T.
  destruct T as (T1 & T2 & T3 & T4).
  assert (Z10 : (0 < 10)%Z) by reflexivity.
  split; [exact (P _ eq_refl)|]. split; [reflexivity|].
  split; [reflexivity|].
  split; [exact (T1 (P _ eq_refl) eq_refl eq_refl)|].
  split; [exact (T2 (1 # 10) (P _ eq_refl) eq_refl)|].
  split; [exact (T3 (P _ eq_refl) eq_refl)|].
  split; [exact Z10|].
  exact (T4 10%Z (P _ eq_refl) Z10 eq_refl).
Defined.

(** On the rig with four readings, the average 51.00 lies within the
    bounds. *)
Lemma measure_distance_average_witness :
  HwLayer.distance_sensor_obj (globals rig_in_range) <> None /\
  filter HwLayer.in_envelope
    (map (fun d => (d * 100)%Q) [1 # 100; 52 # 100; 50 # 100; 51 # 100])
    <> [] /\
  exists avg dev,
    fst (HwLayer.measure_distance 4 rig_in_range)
      = Ret (PyTuple [PyFloat avg; dev]) /\
    (2 <= avg)%Q /\ (avg <= 400)%Q /\ ~ (avg == 0)%Q.
Proof.
  assert (H1 : HwLayer.distance_sensor_obj (globals rig_in_range) <> None)
    by discriminate.
  assert (H2 : HwLayer.read_samples (Z.to_nat 4) rig_in_range
               = (Ret (map (fun d => (d * 100)%Q)
                         [1 # 100; 52 # 100; 50 # 100; 51 # 100]),
                  snd (HwLayer.read_samples 4 rig_in_range)))
    by reflexivity.
  assert (H3 : filter HwLayer.in_envelope
                 (map (fun d => (d * 100)%Q)
                    [1 # 100; 52 # 100; 50 # 100; 51 # 100]) <> [])
    by discriminate.
  split; [exact H1|]. split; [exact H3|].
  exact (@HwLayerMore.measure_distance_average_within_bounds
           _ _ _ 4 _ _ _ H1 H2 H3).
Defined.

(** Importing the module with nothing attached goes through, with
    nothing held. *)
Lemma module_init_all_or_nothing_witness :
  fst (HwLayer.module_init
         (FakeRig.start FakeRig.no_globals FakeRig.unplugged)) = Ret tt /\
  ((HwLayer.distance_sensor_obj (globals rig_unplugged) <> None
    /\ HwLayer.buzzer_obj (globals rig_unplugged) <> None
    /\ HwLayer.button_obj (globals rig_unplugged) <> None) \/
   (HwLayer.distance_sensor_obj (globals rig_unplugged) = None
    /\ HwLayer.buzzer_obj (globals rig_unplugged) = None
    /\ HwLayer.button_obj (globals rig_unplugged) = None)) /\
  ((HwLayer.i2c_bus (globals rig_unplugged) <> None
    /\ HwLayer.mlx_sensor (globals rig_unplugged) <> None
    /\ HwLayer.tcs_sensor (globals rig_unplugged) <> None) \/
   (HwLayer.i2c_bus (globals rig_unplugged) = None
    /\ HwLayer.mlx_sensor (globals rig_unplugged) = None
    /\ HwLayer.tcs_sensor (globals rig_unplugged) = None)).
Proof.
  assert (R : fst (HwLayer.module_init
                     (FakeRig.start FakeRig.no_globals FakeRig.unplugged))
              = Ret tt) by reflexivity.
  split; [exact R|].
  exact (@HwLayerMore.module_init_all_or_nothing _ _
           (FakeRig.start FakeRig.no_globals FakeRig.unplugged) R).
Defined.

(** On the faulty rig whose bus opens, the thermal sensor's constructor
    raises and the import is aborted there. *)
Lemma module_init_aborts_witness :
  fst (HwLayer.module_init (Faulty.rig_before_import true))
    = Raise Faulty.fault /\
  exists rest,
    trace (snd (HwLayer.module_init (Faulty.rig_before_import true))) =
      ECall "adafruit_circuitpython_mlx90640.MLX90640" []
        :: ECall "busio.I2C" [] :: rest \/
    trace (snd (HwLayer.module_init (Faulty.rig_before_import true))) =
      ECall "adafruit_tcs34725.TCS34725" []
        :: ECall "adafruit_circuitpython_mlx90640.MLX90640" []
        :: ECall "busio.I2C" [] :: rest.
Proof.
  assert (R : fst (HwLayer.module_init (Faulty.rig_before_import true))
              = Raise Faulty.fault) by reflexivity.
  split; [exact R|].
  exact (@HwLayerMore.module_init_aborts_only_in_a_sensor_constructor
           _ _ (Faulty.rig_before_import true) Faulty.fault R).
Defined.

(** On the rig, four readings asked and four taken. *)
Lemma measure_distance_reads_witness :
  HwLayer.distance_sensor_obj (globals rig_in_range) <> None /\
  (exists v, fst (HwLayer.measure_distance 4 rig_in_range) = Ret v) /\
  count HwLayerMore.is_distance_read
    (trace (snd (HwLayer.measure_distance 4 rig_in_range)))
  = (count HwLayerMore.is_distance_read (trace rig_in_range) + Z.to_nat 4)%nat.
Proof.
  assert (H1 : HwLayer.distance_sensor_obj (globals rig_in_range) <> None)
    by discriminate.
  assert (H2 : exists v, fst (HwLayer.measure_distance 4 rig_in_range) = Ret v)
    by (eexists; reflexivity).
  split; [exact H1|]. split; [exact H2|].
  exact (proj1 (proj2 (@HwLayerMore.measure_distance_reads_the_sensor
                         _ _ _ 4 rig_in_range)) H1 H2).
Defined.

(** Deviations 0.5 and 1.3: Low below High. *)
Lemma analyze_absorption_monotone_witness :
  (5 # 10 <= 13 # 10)%Q /\
  (HwLayerMore.absorption_rank (HwLayer.analyze_absorption (5 # 10))
   <= HwLayerMore.absorption_rank (HwLayer.analyze_absorption (13 # 10)))%nat.
Proof.
  assert (L : (5 # 10 <= 13 # 10)%Q) by (unfold Qle; cbn; lia).
  split; [exact L|].
  exact (proj1 (HwLayerMore.analyze_absorption_monotone (5 # 10) (13 # 10)) L).
Defined.

(** The colour read on the chip with a working bus. *)
Lemma read_color_value_witness :
  fst (HwLayerChatgpt.read_color chip_button)
    = Ret (PyDict [("r", PyInt 250); ("g", PyInt 10); ("b", PyInt 10);
                   ("clear", PyInt 300);
                   ("color_temp", PyFloat (2700 # 1));
                   ("lux", PyFloat (120 # 1))]) /\
  (PyDict [("r", PyInt 250); ("g", PyInt 10); ("b", PyInt 10);
           ("clear", PyInt 300); ("color_temp", PyFloat (2700 # 1));
           ("lux", PyFloat (120 # 1))] = PyNone \/
   exists r g b c color_temp lx,
     PyDict [("r", PyInt 250); ("g", PyInt 10); ("b", PyInt 10);
             ("clear", PyInt 300); ("color_temp", PyFloat (2700 # 1));
             ("lux", PyFloat (120 # 1))]
     = PyDict [("r", PyInt r); ("g", PyInt g); ("b", PyInt b);
               ("clear", PyInt c);
               ("color_temp", HwLayerChatgpt.opt_float color_temp);
               ("lux", HwLayerChatgpt.opt_float lx)]).
Proof.
  assert (R : fst (HwLayerChatgpt.read_color chip_button)
              = Ret (PyDict [("r", PyInt 250); ("g", PyInt 10);
                             ("b", PyInt 10); ("clear", PyInt 300);
                             ("color_temp", PyFloat (2700 # 1));
                             ("lux", PyFloat (120 # 1))]))
    by (vm_compute; reflexivity).
  split; [exact R|].
  exact (@ChatgptMore.read_color_value _ _ chip_button _ R).
Defined.

End MoreRuns.
